(** * cb-event-forwarder: configuration parsing and the HTTP / Splunk HEC
      output behaviours

    A shallow embedding of [config.go] ([ParseConfig], [configureTLS],
    [parseEventTypes], [parseMonitoredLogs], [parseCbConf]) and of the two
    HTTP-family output handlers ([HttpBehavior], [SplunkBehavior]), followed
    by the properties the design document states about them.

    Conventions.
    - Go strings are byte strings: [string].
    - [int], [int64] and [time.Duration] are [Z]; where the Go code does
      arithmetic on them the 64-bit wrap-around is written out ([wrap64]).
    - A Go map used as a dictionary is a [gmap]; an [ini.File] is a map
      from section names to maps from keys to values.
    - A pointer that may be [nil] is an [option].
    - A call that may panic, or end the process through [log.Fatal],
      yields an [Outcome].
    - Logging has no effect on any value computed here and is left out. *)

From stdpp Require Import base option list strings gmap pretty.
From Stdlib Require Import ZArith Ascii Lia.
From Stdlib Require String.

Set Warnings "-register-all".
Local Open Scope Z_scope.

(* ===================================================================== *)
(** ** Go runtime: outcomes and errors                                    *)
(* ===================================================================== *)

(** How a Go call ends: it returns, it panics, or it terminates the
    process ([log.Fatal] calls [os.Exit(1)]). *)
Inductive Outcome (A : Type) : Type :=
| Returned (a : A)
| Panicked (msg : string)
| Exited (msg : string).
Arguments Returned {A} a.
Arguments Panicked {A} msg.
Arguments Exited {A} msg.

Definition obind {A B} (m : Outcome A) (k : A → Outcome B) : Outcome B :=
  match m with
  | Returned a => k a
  | Panicked msg => Panicked msg
  | Exited msg => Exited msg
  end.

Notation "'run' x <- m ; k" := (obind m (fun x => k))
  (at level 10, x name, m at level 100, k at level 200,
   format "'[' 'run'  x  <-  m ; '//' k ']'").

(** [config.go:112-115] *)
Record ConfigurationError := mkConfigurationError {
  Errors : list string;
  Empty : bool
}.

(** [config.go:125-128] and [config.go:130-133]: [addError] appends
    [err.Error()], so both are one function of the text. *)
Definition addErrorString (e : ConfigurationError) (err : string) : ConfigurationError :=
  {| Errors := Errors e ++ [err]; Empty := false |}.

(** [strings.Join] *)
Fixpoint strings_Join (l : list string) (sep : string) : string :=
  match l with
  | [] => ""
  | [x] => x
  | x :: rest => x +:+ sep +:+ strings_Join rest sep
  end.

(** [config.go:121-123] *)
Definition ConfigurationError_Error (e : ConfigurationError) : string :=
  "Configuration errors:" +:+ String "010" " " +:+
  strings_Join (Errors e) (String "010" " ").

(** The values of Go's [error] interface that occur: an error known by its
    text ([errors.New], [fmt.Errorf], and the errors of the libraries) and
    the [ConfigurationError] struct. *)
Inductive error : Type :=
| errorString (s : string)
| errConfiguration (e : ConfigurationError).

Definition error_Error (e : error) : string :=
  match e with
  | errorString s => s
  | errConfiguration c => ConfigurationError_Error c
  end.

(* ===================================================================== *)
(** ** Go standard library: [strconv] and [strings]                       *)
(* ===================================================================== *)

Definition int64_min : Z := - 2 ^ 63.
Definition int64_max : Z := 2 ^ 63 - 1.

(** Two's-complement reduction of an integer to 64 bits: the value of an
    [int64] expression whose mathematical result is [z]. *)
Definition wrap64 (z : Z) : Z := (z + 2 ^ 63) mod 2 ^ 64 - 2 ^ 63.

Definition digit_of (c : ascii) : option Z :=
  let n := Z.of_nat (nat_of_ascii c) in
  if (48 <=? n) && (n <=? 57) then Some (n - 48) else None.

(** The digits of an unsigned decimal numeral, most significant first;
    [acc] is the value read so far. With base 10 given explicitly
    [strconv] accepts digits only (no underscores, no prefix). *)
Fixpoint parse_digits (s : string) (acc : Z) : option Z :=
  match s with
  | EmptyString => Some acc
  | String c rest =>
      match digit_of c with
      | Some d => parse_digits rest (10 * acc + d)
      | None => None
      end
  end.

(** [strconv.ParseInt(s, 10, 64)]: an optional sign, at least one digit,
    and the value must fit [int64]; [None] is a non-nil [err]. *)
Definition strconv_ParseInt (s : string) : option Z :=
  match s with
  | EmptyString => None
  | String c rest =>
      let '(neg, body) :=
        if Ascii.eqb c "-" then (true, rest)
        else if Ascii.eqb c "+" then (false, rest)
        else (false, s) in
      match body with
      | EmptyString => None
      | _ =>
          match parse_digits body 0 with
          | Some u =>
              let v := if neg then - u else u in
              if (int64_min <=? v) && (v <=? int64_max) then Some v else None
          | None => None
          end
      end
  end.

(** [strconv.Atoi]: [ParseInt(s, 10, 0)] converted to [int], 64 bits wide
    on the platforms the forwarder is built for. *)
Definition strconv_Atoi (s : string) : option Z := strconv_ParseInt s.

(** [strconv.ParseBool] *)
Definition strconv_ParseBool (s : string) : option bool :=
  if bool_decide (s ∈ ["1"; "t"; "T"; "TRUE"; "true"; "True"]) then Some true
  else if bool_decide (s ∈ ["0"; "f"; "F"; "FALSE"; "false"; "False"]) then Some false
  else None.

(** [strings.HasPrefix] *)
Definition strings_HasPrefix (s p : string) : bool := String.prefix p s.

Fixpoint string_rev_acc (s acc : string) : string :=
  match s with
  | EmptyString => acc
  | String c rest => string_rev_acc rest (String c acc)
  end.
Definition string_rev (s : string) : string := string_rev_acc s "".

(** [strings.HasSuffix] *)
Definition strings_HasSuffix (s suffix : string) : bool :=
  String.prefix (string_rev suffix) (string_rev s).

(** Go source literals hold double quotes; here a literal is written with
    an apostrophe wherever the Go text has a double quote (none of the
    literals of the source holds an apostrophe of its own). *)
Fixpoint quoted (s : string) : string :=
  match s with
  | EmptyString => EmptyString
  | String c rest => String (if Ascii.eqb c "'" then "034"%char else c) (quoted rest)
  end.

(** [strings.Split(s, sep)] for a one-byte separator: the pieces between
    the separators, in order; never empty ([Split("", ",")] is [[""]]). *)
Fixpoint split_on (sep : ascii) (s : string) (cur : string) : list string :=
  match s with
  | EmptyString => [string_rev cur]
  | String c rest =>
      if Ascii.eqb c sep then string_rev cur :: split_on sep rest ""
      else split_on sep rest (String c cur)
  end.
Definition strings_Split_comma (s : string) : list string := split_on "," s "".

(* ===================================================================== *)
(** ** Go standard library: [text/template]                               *)
(* ===================================================================== *)

(** The templates written in the source are literals over a small
    fragment of [text/template]: literal text, [{{.}}], field chains
    [{{.A.B}}], and [{{range <arg>}} ... {{end}}]; their parse trees and
    their execution are spelled out below ([text/template] does no
    escaping). A template whose text comes from the configuration file
    may use all of [text/template]: its parser and its executor are taken
    from the host, and its tree is kept as what executing it writes. *)

(** The data a template is executed on (Go uses reflection on these). *)
Inductive value : Type :=
| VString (s : string)
| VInt (z : Z)
| VStruct (fields : list (string * value))
| VChan (elems : list value).

Inductive arg : Type :=
| ArgDot
| ArgField (ident : list string).

(** The bytes written and the error that stopped the execution, if any. *)
Definition written : Type := string * option error.

(** The nodes of a parse tree. [ExecNode] stands for a tree parsed by the
    host: [exec data] is what executing it on [data] writes. *)
Inductive node : Type :=
| TextNode (text : string)
| ActionNode (a : arg)
| RangeNode (a : arg) (body : list node)
| ExecNode (exec : value → written).

Record Template := mkTemplate {
  tmpl_name : string;
  tmpl_Root : list node
}.

(** *** Parsing *)

Inductive token : Type :=
| TokText (s : string)
| TokAction (s : string).

Definition is_left_brace (c : ascii) : bool := Ascii.eqb c "{".
Definition is_right_brace (c : ascii) : bool := Ascii.eqb c "}".

Definition emit_text (cur : string) (rest : list token) : list token :=
  match cur with
  | EmptyString => rest
  | _ => TokText (string_rev cur) :: rest
  end.

(** Cut the template text at the delimiters. [inact] tells whether the
    scan is inside an action; [cur] holds, reversed, the bytes read since
    the last delimiter. An action left open is an error. *)
Fixpoint lex (inact : bool) (cur : string) (s : string) : option (list token) :=
  match s with
  | EmptyString => if inact then None else Some (emit_text cur [])
  | String c1 rest =>
      match rest with
      | String c2 rest2 =>
          if negb inact && is_left_brace c1 && is_left_brace c2 then
            emit_text cur <$> lex true "" rest2
          else if inact && is_right_brace c1 && is_right_brace c2 then
            (TokAction (string_rev cur) ::.) <$> lex false "" rest2
          else lex inact (String c1 cur) rest
      | EmptyString => lex inact (String c1 cur) rest
      end
  end.

Definition is_space (c : ascii) : bool :=
  bool_decide (c ∈ [" "; "009"; "010"; "013"]%char).

Fixpoint trim_left (s : string) : string :=
  match s with
  | String c rest => if is_space c then trim_left rest else s
  | EmptyString => s
  end.
Definition trim (s : string) : string :=
  string_rev (trim_left (string_rev (trim_left s))).

Definition is_alnum (c : ascii) : bool :=
  let n := Z.of_nat (nat_of_ascii c) in
  ((48 <=? n) && (n <=? 57)) || ((65 <=? n) && (n <=? 90)) ||
  ((97 <=? n) && (n <=? 122)) || (n =? 95).

Fixpoint all_alnum (s : string) : bool :=
  match s with
  | EmptyString => true
  | String c rest => is_alnum c && all_alnum rest
  end.

Definition is_digit (c : ascii) : bool :=
  let n := Z.of_nat (nat_of_ascii c) in (48 <=? n) && (n <=? 57).

(** A field name: letters, digits and [_], not starting with a digit (a
    dot followed by a digit starts a number). *)
Definition is_ident (s : string) : bool :=
  match s with
  | EmptyString => false
  | String c _ => negb (is_digit c) && all_alnum s
  end.

(** [.] or a chain of fields [.A.B]. *)
Definition parse_arg (s : string) : option arg :=
  match s with
  | String "." EmptyString => Some ArgDot
  | String "." rest =>
      let ids := split_on "." rest "" in
      if forallb is_ident ids then Some (ArgField ids) else None
  | _ => None
  end.

Inductive action : Type :=
| ActArg (a : arg)
| ActRange (a : arg)
| ActEnd.

Definition parse_action (s : string) : option action :=
  let t := trim s in
  if String.eqb t "end" then Some ActEnd
  else if String.prefix "range " t then
    ActRange <$> parse_arg (trim (String.substring 6 (String.length t - 6) t))
  else ActArg <$> parse_arg t.

(** Assemble the tree: [cur] is the list being built (reversed), [stack]
    the enclosing [range]s still open, innermost first. *)
Fixpoint build (toks : list token) (cur : list node)
    (stack : list (arg * list node)) : option (list node) :=
  match toks with
  | [] => match stack with [] => Some (rev cur) | _ :: _ => None end
  | TokText s :: r => build r (TextNode s :: cur) stack
  | TokAction a :: r =>
      match parse_action a with
      | Some (ActArg x) => build r (ActionNode x :: cur) stack
      | Some (ActRange x) => build r [] ((x, cur) :: stack)
      | Some ActEnd =>
          match stack with
          | (x, outer) :: st => build r (RangeNode x (rev cur) :: outer) st
          | [] => None
          end
      | None => None
      end
  end.

(** [template.New(name)] *)
Definition template_New (name : string) : Template :=
  {| tmpl_name := name; tmpl_Root := [] |}.

(** [t.Parse(text)] for a literal of the source: [None] is a non-nil
    [err]. The program applies it to the five template literals of
    [config.go] and of the two [Initialize] functions only. *)
Definition template_Parse (t : Template) (text : string) : option Template :=
  toks ← lex false "" text;
  root ← build toks [] [];
  Some {| tmpl_name := tmpl_name t; tmpl_Root := root |}.

(** [template.Must]: panics when the parse failed. *)
Definition template_Must (r : option Template) : Outcome Template :=
  match r with
  | Some t => Returned t
  | None => Panicked "template: parse error"
  end.

(** *** Execution *)

Fixpoint lookup_field (f : string) (fields : list (string * value)) : option value :=
  match fields with
  | [] => None
  | (k, v) :: rest => if String.eqb k f then Some v else lookup_field f rest
  end.

Fixpoint eval_field (ident : list string) (v : value) : option value :=
  match ident with
  | [] => Some v
  | f :: rest =>
      match v with
      | VStruct fields => lookup_field f fields ≫= eval_field rest
      | _ => None
      end
  end.

Definition eval_arg (a : arg) (dot : value) : option value :=
  match a with
  | ArgDot => Some dot
  | ArgField ident => eval_field ident dot
  end.

(** What [fmt.Fprint] writes for a value; strings and integers only. *)
Definition print_value (v : value) : option string :=
  match v with
  | VString s => Some s
  | VInt z => Some (pretty z)
  | _ => None
  end.

Definition seq_exec {A} (f : A → written) : list A → written :=
  fix go (l : list A) : written :=
    match l with
    | [] => ("", None)
    | x :: rest =>
        match f x with
        | (o, None) => let '(o', e) := go rest in (o +:+ o', e)
        | (o, Some e) => (o, Some e)
        end
    end.

(** Executing one node on [dot]. A [range] over a channel receives the
    elements of the channel in order; each literal of the source ranges
    over [Events] once. A tree of the host writes what the host says. *)
Fixpoint exec_node (n : node) (dot : value) {struct n} : written :=
  match n with
  | TextNode s => (s, None)
  | ActionNode a =>
      match eval_arg a dot ≫= print_value with
      | Some s => (s, None)
      | None => ("", Some (errorString "template: can't evaluate"))
      end
  | RangeNode a body =>
      match eval_arg a dot with
      | Some (VChan elems) =>
          seq_exec (fun elem => seq_exec (fun n' => exec_node n' elem) body) elems
      | _ => ("", Some (errorString "template: range can't iterate"))
      end
  | ExecNode exec => exec dot
  end.

(** [t.Execute(wr, data)]: what reaches the writer, and the error. *)
Definition template_Execute (t : Template) (data : value) : written :=
  seq_exec (fun n => exec_node n data) (tmpl_Root t).

(* ===================================================================== *)
(** ** Configuration ([config.go])                                        *)
(* ===================================================================== *)

(** [config.go:19-28] *)
Definition FileOutputType : Z := 0.
Definition S3OutputType : Z := 1.
Definition TCPOutputType : Z := 2.
Definition UDPOutputType : Z := 3.
Definition SyslogOutputType : Z := 4.
Definition HttpOutputType : Z := 5.
Definition SplunkOutputType : Z := 6.
Definition KafkaOutputType : Z := 7.

(** [config.go:30-33] *)
Definition LEEFOutputFormat : Z := 0.
Definition JSONOutputFormat : Z := 1.

(** [time.Duration] counts nanoseconds in an [int64]. *)
Definition time_Second : Z := 1000000000.
Definition time_Minute : Z := 60 * time_Second.

(** [tls.Certificate] and the PEM text of a CA file, kept as loaded. *)
Definition Certificate : Type := string.

Definition VersionTLS10 : Z := 769.
Definition VersionTLS12 : Z := 771.

(** The fields of [tls.Config] that [configureTLS] sets. *)
Record tls_Config := mk_tls_Config {
  InsecureSkipVerify : bool;
  Certificates : list Certificate;
  RootCAs : option (list string);
  tls_ServerName : string;
  MinVersion : Z
}.

(** [config.go:35-110] *)
Record Configuration := mkConfiguration {
  ServerName : string;
  AMQPHostname : string;
  DebugFlag : bool;
  DebugStore : string;
  OutputType : Z;
  OutputFormat : Z;
  AMQPUsername : string;
  AMQPPassword : string;
  AMQPPort : Z;
  AMQPTLSEnabled : bool;
  AMQPTLSClientKey : string;
  AMQPTLSClientCert : string;
  AMQPTLSCACert : string;
  AMQPQueueName : string;
  AMQPAutoDeleteQueue : bool;
  OutputParameters : string;
  EventTypes : list string;
  EventMap : gmap string bool;
  HTTPServerPort : Z;
  CbServerURL : string;
  UseRawSensorExchange : bool;
  MonitoredLogs : list string;
  S3ServerSideEncryption : option string;
  S3CredentialProfileName : option string;
  S3ACLPolicy : option string;
  S3ObjectPrefix : option string;
  S3VerboseKey : bool;
  S3CompressData : bool;
  TLSClientKey : option string;
  TLSClientCert : option string;
  TLSCACert : option string;
  TLSVerify : bool;
  TLSCName : option string;
  TLS12Only : bool;
  HttpAuthorizationToken : option string;
  HttpPostTemplate : option Template;
  HttpContentType : option string;
  UploadEmptyFiles : bool;
  CommaSeparateEvents : bool;
  BundleSendTimeout : Z;
  BundleSizeMax : Z;
  FileHandlerCompressData : bool;
  TLSConfig : option tls_Config;
  PerformFeedPostprocessing : bool;
  CbAPIToken : string;
  CbAPIVerifySSL : bool;
  CbAPIProxyUrl : string;
  KafkaBrokers : option string;
  KafkaTopicSuffix : option string;
  AuditingEnabled : bool;
  AuditRedisHost : string;
  AuditRedisDatabaseNumber : Z;
  AuditPipelineSize : Z;
  SplunkToken : option string;
  AuditLog : bool
}.

(** [Configuration{}]: every field at its zero value. *)
Definition Configuration_zero : Configuration :=
  {| ServerName := ""; AMQPHostname := ""; DebugFlag := false; DebugStore := "";
     OutputType := 0; OutputFormat := 0; AMQPUsername := ""; AMQPPassword := "";
     AMQPPort := 0; AMQPTLSEnabled := false; AMQPTLSClientKey := "";
     AMQPTLSClientCert := ""; AMQPTLSCACert := ""; AMQPQueueName := "";
     AMQPAutoDeleteQueue := false; OutputParameters := ""; EventTypes := [];
     EventMap := ∅; HTTPServerPort := 0; CbServerURL := "";
     UseRawSensorExchange := false; MonitoredLogs := [];
     S3ServerSideEncryption := None; S3CredentialProfileName := None;
     S3ACLPolicy := None; S3ObjectPrefix := None; S3VerboseKey := false;
     S3CompressData := false; TLSClientKey := None; TLSClientCert := None;
     TLSCACert := None; TLSVerify := false; TLSCName := None; TLS12Only := false;
     HttpAuthorizationToken := None; HttpPostTemplate := None;
     HttpContentType := None; UploadEmptyFiles := false;
     CommaSeparateEvents := false; BundleSendTimeout := 0; BundleSizeMax := 0;
     FileHandlerCompressData := false; TLSConfig := None;
     PerformFeedPostprocessing := false; CbAPIToken := ""; CbAPIVerifySSL := false;
     CbAPIProxyUrl := ""; KafkaBrokers := None; KafkaTopicSuffix := None;
     AuditingEnabled := false; AuditRedisHost := ""; AuditRedisDatabaseNumber := 0;
     AuditPipelineSize := 0; SplunkToken := None; AuditLog := false |}.

(** [config.go:117-119]; [%d] writes the port in decimal. *)
Definition AMQPURL (c : Configuration) : string :=
  "amqp://" +:+ AMQPUsername c +:+ ":" +:+ AMQPPassword c +:+ "@" +:+
  AMQPHostname c +:+ ":" +:+ pretty (AMQPPort c).

(** *** The [go-ini] file and the host *)

(** [ini.File] is [map[string]Section], [Section] is [map[string]string]. *)
Abbreviation File := (gmap string (gmap string string)).

(** [File.Get(section, key)]: the pair [(value, ok)] as an option. *)
Definition Get (f : File) (section key : string) : option string :=
  f !! section ≫= fun sec => sec !! key.

(** An HTTP request as [Upload] builds it, and what comes back. *)
Record Request := mkRequest {
  Method : string;
  URL : string;
  Header : gmap string (list string);
  RequestBody : string
}.

(** A response body as a reader: the bytes [ioutil.ReadAll] obtains from
    it, and the error the read ended with, if any. *)
Record Response := mkResponse {
  Status : string;
  StatusCode : Z;
  Body : string * option error
}.

Record http_Transport := mk_http_Transport { TLSClientConfig : option tls_Config }.
Record http_Client := mk_http_Client { Transport : http_Transport }.

(** What the program takes from outside itself: the file system, the
    network, and the library functions that are not spelled out here
    (Unicode case folding and white space, URL syntax, [text/template]
    on the templates of the configuration file). *)
Record Env := mkEnv {
  (** [ini.LoadFile] *)
  ini_LoadFile : string → error + File;
  (** [strings.ToLower], [strings.TrimSpace] *)
  strings_ToLower : string → string;
  strings_TrimSpace : string → string;
  (** [tls.LoadX509KeyPair(certFile, keyFile)] *)
  tls_LoadX509KeyPair : string → string → error + Certificate;
  (** [ioutil.ReadFile] *)
  ioutil_ReadFile : string → error + string;
  (** whether [url.Parse], as called by [http.NewRequest], accepts the text *)
  url_Parse_ok : string → bool;
  (** [text/template] on a text that is not a literal of the source:
      [None] for a parse error, otherwise what executing the parsed
      template writes for each data *)
  text_template : string → option (value → written);
  (** [client.Do(request)]: the exchange with the server *)
  http_Client_Do : http_Client → Request → error + Response
}.

(** [config.go:135-147] *)
Definition parseCbConf (env : Env) : string * string * option error :=
  match ini_LoadFile env "/etc/cb/cb.conf" with
  | inl err => ("", "", Some err)
  | inr input =>
      let username := default "" (Get input "" "RabbitMQUser") in
      let password := default "" (Get input "" "RabbitMQPassword") in
      if (String.length username =? 0)%nat || (String.length password =? 0)%nat then
        (username, password,
         Some (errorString "Could not get RabbitMQ credentials from /etc/cb/cb.conf"))
      else (username, password, None)
  end.

(** [config.go:150-188] *)
Definition eventTypes : list (string * list string) :=
  [ ("events_watchlist", ["watchlist.#"]);
    ("events_feed", ["feed.#"]);
    ("events_alert", ["alert.#"]);
    ("events_raw_sensor",
      [ "ingress.event.process"; "ingress.event.procstart"; "ingress.event.netconn";
        "ingress.event.procend"; "ingress.event.childproc"; "ingress.event.moduleload";
        "ingress.event.module"; "ingress.event.filemod"; "ingress.event.regmod";
        "ingress.event.tamper"; "ingress.event.crossprocopen";
        "ingress.event.remotethread"; "ingress.event.processblock";
        "ingress.event.emetmitigation" ]);
    ("events_binary_observed", ["binaryinfo.#"]);
    ("events_binary_upload", ["binarystore.#"]);
    ("events_storage_partition", ["events.partition.#"]) ].

(** [config.go:149-217]: the new [EventTypes] and [EventMap]. *)
Definition parseEventTypes (env : Env) (c_EventTypes : list string) (input : File)
    : list string * gmap string bool :=
  let types :=
    foldl (fun acc '(configKey, eventList) =>
             match Get input "bridge" configKey with
             | Some val =>
                 let val := strings_ToLower env val in
                 if String.eqb val "all" then acc ++ eventList
                 else if String.eqb val "0" then acc
                 else acc ++ strings_Split_comma val
             | None => acc
             end) c_EventTypes eventTypes in
  (types, foldl (fun m eventName => <[eventName := true]> m) ∅ types).

(** [config.go:219-226] *)
Definition parseMonitoredLogs (c_MonitoredLogs : list string) (input : File) : list string :=
  match Get input "bridge" "monitored_logs" with
  | Some val => c_MonitoredLogs ++ strings_Split_comma val
  | None => c_MonitoredLogs
  end.

(** [p != nil && len( *p ) > 0]: the text behind the pointer, when there
    is one and it is not empty. *)
Definition nonempty (o : option string) : option string :=
  match o with
  | Some s => if (0 <? String.length s)%nat then Some s else None
  | None => None
  end.

(** [config.go:724-768]; [log.Fatal] ends the process. The arguments are
    the fields of the [config] argument that the function reads. *)
Definition configureTLS (env : Env) (c_TLSVerify : bool)
    (c_TLSClientCert c_TLSClientKey c_TLSCACert c_TLSCName : option string)
    (c_TLS12Only : bool) : Outcome tls_Config :=
  let insecureSkipVerify := negb c_TLSVerify in
  run certificates <-
    match nonempty c_TLSClientCert, nonempty c_TLSClientKey with
    | Some cert, Some key =>
        match tls_LoadX509KeyPair env cert key with
        | inl err => Exited (error_Error err)
        | inr keypair => Returned [keypair]
        end
    | _, _ => Returned []
    end;
  run rootCAs <-
    match nonempty c_TLSCACert with
    | Some ca =>
        match ioutil_ReadFile env ca with
        | inl err => Exited (error_Error err)
        | inr caCert => Returned (Some [caCert])
        end
    | None => Returned None
    end;
  let serverName := default "" (nonempty c_TLSCName) in
  let minVersion := if c_TLS12Only then VersionTLS12 else VersionTLS10 in
  Returned {| InsecureSkipVerify := insecureSkipVerify;
              Certificates := certificates;
              RootCAs := rootCAs;
              tls_ServerName := serverName;
              MinVersion := minVersion |}.

(** [if ok { n, err := strconv.ParseInt(val, 10, 64); if err == nil { x = n } }] *)
Definition int64_setting (current : Z) (val : option string) : Z :=
  match val with
  | Some v => default current (strconv_ParseInt v)
  | None => current
  end.

(** [if ok { n, err := strconv.ParseInt(val, 10, 64);
             if err == nil { x = time.Duration(n) * time.Second } }];
    the product is an [int64] product. *)
Definition seconds_setting (current : Z) (val : option string) : Z :=
  match val with
  | Some v =>
      match strconv_ParseInt v with
      | Some n => wrap64 (n * time_Second)
      | None => current
      end
  | None => current
  end.

(** The cases of [switch outType], [config.go:403-530]. *)
Inductive outputCase : Type :=
| case_file | case_tcp | case_udp | case_s3 | case_http | case_syslog
| case_kafka | case_splunk | case_default.

Definition switch_outType (outType : string) : outputCase :=
  if String.eqb outType "file" then case_file
  else if String.eqb outType "tcp" then case_tcp
  else if String.eqb outType "udp" then case_udp
  else if String.eqb outType "s3" then case_s3
  else if String.eqb outType "http" then case_http
  else if String.eqb outType "syslog" then case_syslog
  else if String.eqb outType "kafka" then case_kafka
  else if String.eqb outType "splunk" then case_splunk
  else case_default.

(** [parameterKey] as each case sets it; the kafka case and the default
    case leave it empty. *)
Definition case_parameterKey (case : outputCase) : string :=
  match case with
  | case_file => "outfile"
  | case_tcp => "tcpout"
  | case_udp => "udpout"
  | case_s3 => "s3out"
  | case_http => "httpout"
  | case_syslog => "syslogout"
  | case_splunk => "splunkout"
  | case_kafka | case_default => ""
  end.

(** [config.OutputType] as each case sets it; the default case leaves the
    default, [FileOutputType]. *)
Definition case_OutputType (case : outputCase) : Z :=
  match case with
  | case_file => FileOutputType
  | case_tcp => TCPOutputType
  | case_udp => UDPOutputType
  | case_s3 => S3OutputType
  | case_http => HttpOutputType
  | case_syslog => SyslogOutputType
  | case_kafka => KafkaOutputType
  | case_splunk => SplunkOutputType
  | case_default => FileOutputType
  end.

(** [t.Parse(text)] for a text read from the configuration file. *)
Definition template_Parse_text (env : Env) (t : Template) (text : string)
    : option Template :=
  exec ← text_template env text;
  Some {| tmpl_name := tmpl_name t; tmpl_Root := [ExecNode exec] |}.

(** [config.go:463-474] and [config.go:507-518]: the post template, from
    the configuration file or else the default for the output format. *)
Definition parsePostTemplate (env : Env) (postTemplate : option string)
    (c_OutputFormat : Z) (jsonDefault : string) : Outcome Template :=
  let t := template_New "http_post_output" in
  match postTemplate with
  | Some text => template_Must (template_Parse_text env t text)
  | None =>
      if c_OutputFormat =? JSONOutputFormat
      then template_Must (template_Parse t jsonDefault)
      else template_Must (template_Parse t "{{range .Events}}{{.EventText}}{{end}}")
  end.

(** [config.go:469-470] *)
Definition httpJSONPostTemplate : string :=
  quoted "{'filename': '{{.FileName}}', 'service': 'carbonblack', 'alerts':[{{range .Events}}{{.EventText}}{{end}}]}".

(** [config.go:513-514] *)
Definition splunkJSONPostTemplate : string :=
  quoted "{{range .Events}}{'sourcetype':'bit9:carbonblack:json','event':{{.EventText}}}{{end}}".

(** [if ok { b, err := strconv.ParseBool(val); if err == nil { x = b } }] *)
Definition bool_setting (current : bool) (val : option string) : bool :=
  match val with
  | Some v => default current (strconv_ParseBool v)
  | None => current
  end.

(** [if cond { errs.addErrorString(msg) }] *)
Definition addErrorString_if (cond : bool) (errs : ConfigurationError) (msg : string)
    : ConfigurationError :=
  if cond then addErrorString errs msg else errs.

(** [!ok] of a lookup, [err == nil] of an error. *)
Definition absent {A} (o : option A) : bool :=
  match o with
  | Some _ => false
  | None => true
  end.

(** [config.go:717-721]: the error returned at the end. *)
Definition error_of (errs : ConfigurationError) : option error :=
  if Empty errs then None else Some (errConfiguration errs).

(** [if ok { _, err := strconv.ParseBool(val); if err != nil { errs.addErrorString(msg) } }] *)
Definition bool_setting_error (errs : ConfigurationError) (val : option string)
    (msg : string) : ConfigurationError :=
  match val with
  | Some v =>
      match strconv_ParseBool v with
      | Some _ => errs
      | None => addErrorString errs msg
      end
  | None => errs
  end.

(** [if ok { n, err := strconv.Atoi(val); if err == nil { x = n } }] *)
Definition int_setting (current : Z) (val : option string) : Z :=
  match val with
  | Some v => default current (strconv_Atoi v)
  | None => current
  end.

(** [config.go:228-722]. The function is straight-line code over the
    fields of [config] and over [errs]; each local below is named after
    the field it computes and holds that field's value from the point of
    its definition on, and [errs] is rebound wherever the code may add to
    it. What is returned is the pair [(config, err)]. *)
Definition ParseConfig (env : Env) (fn : string) : Outcome (Configuration * option error) :=
  let errs := {| Errors := []; Empty := true |} in
  match ini_LoadFile env fn with
  | inl err => Returned (Configuration_zero, Some err)
  | inr input =>
    (* defaults, 238-250; required values, 253-395 *)
    let serverName := default "CB" (Get input "bridge" "server_name") in
    let debugFlag :=
      match Get input "bridge" "debug" with
      | Some val => if String.eqb val "1" then true else false
      | None => false
      end in
    let debugStore :=
      default "/var/log/cb/integrations/cb-event-forwarder" (Get input "bridge" "debug_store") in
    let httpServerPort := int_setting 33706 (Get input "bridge" "http_server_port") in
    let amqpUsername := default "cb" (Get input "bridge" "rabbit_mq_username") in
    let amqpPassword := default "" (Get input "bridge" "rabbit_mq_password") in
    let errs :=
      addErrorString_if (absent (Get input "bridge" "rabbit_mq_password")) errs
        "Missing required rabbit_mq_password section" in
    let amqpPort := int_setting 5004 (Get input "bridge" "rabbit_mq_port") in
    let amqpAutoDeleteQueue := bool_setting true (Get input "bridge" "rabbit_mq_auto_delete_queue") in
    let needCbConf :=
      (String.length amqpUsername =? 0)%nat || (String.length amqpPassword =? 0)%nat in
    let cbConf := parseCbConf env in
    let amqpUsername := if needCbConf then cbConf.1.1 else amqpUsername in
    let amqpPassword := if needCbConf then cbConf.1.2 else amqpPassword in
    let errs :=
      addErrorString_if (needCbConf && negb (absent cbConf.2)) errs
        (from_option error_Error "" cbConf.2) in
    let amqpTLSEnabled := bool_setting false (Get input "bridge" "rabbit_mq_use_tls") in
    let amqpTLSClientKey := default "" (Get input "bridge" "rabbit_mq_key") in
    let amqpTLSClientCert := default "" (Get input "bridge" "rabbit_mq_cert") in
    let amqpTLSCACert := default "" (Get input "bridge" "rabbit_mq_ca_cert") in
    let amqpQueueName := default "" (Get input "bridge" "rabbit_mq_queue_name") in
    let amqpHostname := default "localhost" (Get input "bridge" "cb_server_hostname") in
    let cbServerURL :=
      match Get input "bridge" "cb_server_url" with
      | Some val => if strings_HasSuffix val "/" then val else val +:+ "/"
      | None => ""
      end in
    let outputFormat :=
      match Get input "bridge" "output_format" with
      | Some val =>
          if String.eqb (strings_ToLower env (strings_TrimSpace env val)) "leef"
          then LEEFOutputFormat else JSONOutputFormat
      | None => JSONOutputFormat
      end in
    let fileHandlerCompressData := bool_setting false (Get input "bridge" "compress_data") in
    let auditLog := bool_setting false (Get input "bridge" "audit_log") in
    match Get input "bridge" "output_type" with
    | None =>
        (* 531-534 *)
        let errs := addErrorString errs "No output type specified" in
        Returned
          ({| ServerName := serverName; AMQPHostname := amqpHostname; DebugFlag := debugFlag;
              DebugStore := debugStore; OutputType := FileOutputType;
              OutputFormat := outputFormat; AMQPUsername := amqpUsername;
              AMQPPassword := amqpPassword; AMQPPort := amqpPort;
              AMQPTLSEnabled := amqpTLSEnabled; AMQPTLSClientKey := amqpTLSClientKey;
              AMQPTLSClientCert := amqpTLSClientCert; AMQPTLSCACert := amqpTLSCACert;
              AMQPQueueName := amqpQueueName; AMQPAutoDeleteQueue := amqpAutoDeleteQueue;
              OutputParameters := ""; EventTypes := []; EventMap := ∅;
              HTTPServerPort := httpServerPort; CbServerURL := cbServerURL;
              UseRawSensorExchange := false; MonitoredLogs := [];
              S3ServerSideEncryption := None; S3CredentialProfileName := None;
              S3ACLPolicy := None; S3ObjectPrefix := None; S3VerboseKey := false;
              S3CompressData := false; TLSClientKey := None; TLSClientCert := None;
              TLSCACert := None; TLSVerify := false; TLSCName := None; TLS12Only := false;
              HttpAuthorizationToken := None; HttpPostTemplate := None;
              HttpContentType := None; UploadEmptyFiles := false;
              CommaSeparateEvents := false; BundleSendTimeout := 0; BundleSizeMax := 0;
              FileHandlerCompressData := fileHandlerCompressData; TLSConfig := None;
              PerformFeedPostprocessing := false; CbAPIToken := ""; CbAPIVerifySSL := false;
              CbAPIProxyUrl := ""; KafkaBrokers := None; KafkaTopicSuffix := None;
              AuditingEnabled := false; AuditRedisHost := ""; AuditRedisDatabaseNumber := 0;
              AuditPipelineSize := 0; SplunkToken := None; AuditLog := auditLog |},
           Some (errConfiguration errs))
    | Some outType =>
      let outType := strings_ToLower env (strings_TrimSpace env outType) in
      (* switch outType, 403-530 *)
      let case := switch_outType outType in
      let parameterKey := case_parameterKey case in
      let outputType := case_OutputType case in
      let from_s3 (key : string) : option string :=
        match case with case_s3 => Get input "s3" key | _ => None end in
      let s3CredentialProfileName := from_s3 "credential_profile" in
      let s3ACLPolicy := from_s3 "acl_policy" in
      let s3ServerSideEncryption := from_s3 "server_side_encryption" in
      let s3ObjectPrefix := from_s3 "object_prefix" in
      let s3VerboseKey := bool_setting false (from_s3 "verbose_key") in
      let s3CompressData :=
        match case with
        | case_s3 =>
            match Get input "s3" "compress_data" with
            | Some val => default false (strconv_ParseBool val)
            | None => true
            end
        | _ => false
        end in
      let httpAuthorizationToken :=
        match case with case_http => Get input "http" "authorization_token" | _ => None end in
      let splunkToken :=
        match case with case_splunk => Get input "splunk" "hec_token" | _ => None end in
      run httpPostTemplate <-
        match case with
        | case_http =>
            run t <- parsePostTemplate env (Get input "http" "http_post_template")
                       outputFormat httpJSONPostTemplate;
            Returned (Some t)
        | case_splunk =>
            run t <- parsePostTemplate env (Get input "splunk" "http_post_template")
                       outputFormat splunkJSONPostTemplate;
            Returned (Some t)
        | _ => Returned None
        end;
      let httpContentType :=
        match case with
        | case_http | case_splunk =>
            Some (default "application/json" (Get input "http" "content_type"))
        | _ => None
        end in
      let kafkaBrokers :=
        match case with case_kafka => Get input "kafka" "brokers" | _ => None end in
      let kafkaTopicSuffix :=
        match case with case_kafka => Get input "kafka" "topic_suffix" | _ => None end in
      let errs :=
        addErrorString_if (match case with case_default => true | _ => false end) errs
          ("Unknown output type: " +:+ outType) in
      (* 536-570 *)
      let auditingEnabled := bool_setting false (Get input "audit" "enabled") in
      run auditRedisHost <-
        (if auditingEnabled then
           match Get input "audit" "redis_host" with
           | Some val => Returned val
           | None => Panicked "NOT OK"
           end
         else Returned "");
      let auditRedisDatabaseNumber :=
        if auditingEnabled then int_setting 0 (Get input "audit" "redis_database_number") else 0 in
      let auditPipelineSize :=
        if auditingEnabled then int_setting 0 (Get input "audit" "pipeline_size") else 0 in
      (* 572-580 *)
      let outputParameters :=
        if (0 <? String.length parameterKey)%nat
        then default "" (Get input "bridge" parameterKey) else "" in
      let errs :=
        addErrorString_if
          ((0 <? String.length parameterKey)%nat && absent (Get input "bridge" parameterKey))
          errs
          ("Missing value for key " +:+ parameterKey +:+
           ", required by output type " +:+ outType) in
      (* 582-596 *)
      let useRawSensorExchange := bool_setting false (Get input "bridge" "use_raw_sensor_exchange") in
      let errs :=
        bool_setting_error errs (Get input "bridge" "use_raw_sensor_exchange")
          "Unknown value for 'use_raw_sensor_exchange': valid values are true, false, 1, 0" in
      (* TLS configuration, 598-645 *)
      let tlsClientKey := Get input outType "client_key" in
      let tlsClientCert := Get input outType "client_cert" in
      let tlsCACert := Get input outType "ca_cert" in
      let tlsVerify := bool_setting true (Get input outType "tls_verify") in
      let errs :=
        bool_setting_error errs (Get input outType "tls_verify")
          "Unknown value for 'tls_verify': valid values are true, false, 1, 0. Default is 'true'" in
      let tls12Only := negb (bool_setting false (Get input outType "insecure_tls")) in
      let errs :=
        bool_setting_error errs (Get input outType "insecure_tls")
          "Unknown value for 'insecure_tls': " in
      let tlsCName := Get input outType "server_cname" in
      run tlsConfig <-
        configureTLS env tlsVerify tlsClientCert tlsClientKey tlsCACert tlsCName tls12Only;
      (* Bundle configuration, 647-692 *)
      let uploadEmptyFiles := if String.eqb outType "splunk" then false else true in
      let uploadEmptyFiles :=
        match Get input outType "upload_empty_files" ≫= strconv_ParseBool with
        | Some false => false
        | _ => uploadEmptyFiles
        end in
      let errs :=
        bool_setting_error errs (Get input outType "upload_empty_files")
          "Unknown value for 'upload_empty_files': valid values are true, false, 1, 0. Default is 'true'" in
      let commaSeparateEvents := if outputFormat =? JSONOutputFormat then true else false in
      let bundleSizeMax :=
        int64_setting (10 * 1024 * 1024) (Get input outType "bundle_size_max") in
      let bundleSendTimeout :=
        seconds_setting (5 * time_Minute) (Get input outType "bundle_send_timeout") in
      (* 694-711 *)
      let cbAPIVerifySSL := bool_setting false (Get input "bridge" "api_verify_ssl") in
      let errs :=
        bool_setting_error errs (Get input "bridge" "api_verify_ssl")
          "Unknown value for 'api_verify_ssl': valid values are true, false, 1, 0. Default is 'false'" in
      let cbAPIToken := default "" (Get input "bridge" "api_token") in
      let performFeedPostprocessing :=
        match Get input "bridge" "api_token" with Some _ => true | None => false end in
      let cbAPIProxyUrl := default "" (Get input "bridge" "api_proxy_url") in
      (* 713-715 *)
      let eventTypes := (parseEventTypes env [] input).1 in
      let eventMap := (parseEventTypes env [] input).2 in
      let monitoredLogs := parseMonitoredLogs [] input in
      (* 717-721 *)
      Returned
        ({| ServerName := serverName; AMQPHostname := amqpHostname; DebugFlag := debugFlag;
            DebugStore := debugStore; OutputType := outputType;
            OutputFormat := outputFormat; AMQPUsername := amqpUsername;
            AMQPPassword := amqpPassword; AMQPPort := amqpPort;
            AMQPTLSEnabled := amqpTLSEnabled; AMQPTLSClientKey := amqpTLSClientKey;
            AMQPTLSClientCert := amqpTLSClientCert; AMQPTLSCACert := amqpTLSCACert;
            AMQPQueueName := amqpQueueName; AMQPAutoDeleteQueue := amqpAutoDeleteQueue;
            OutputParameters := outputParameters; EventTypes := eventTypes;
            EventMap := eventMap; HTTPServerPort := httpServerPort;
            CbServerURL := cbServerURL; UseRawSensorExchange := useRawSensorExchange;
            MonitoredLogs := monitoredLogs;
            S3ServerSideEncryption := s3ServerSideEncryption;
            S3CredentialProfileName := s3CredentialProfileName;
            S3ACLPolicy := s3ACLPolicy; S3ObjectPrefix := s3ObjectPrefix;
            S3VerboseKey := s3VerboseKey; S3CompressData := s3CompressData;
            TLSClientKey := tlsClientKey; TLSClientCert := tlsClientCert;
            TLSCACert := tlsCACert; TLSVerify := tlsVerify; TLSCName := tlsCName;
            TLS12Only := tls12Only; HttpAuthorizationToken := httpAuthorizationToken;
            HttpPostTemplate := httpPostTemplate; HttpContentType := httpContentType;
            UploadEmptyFiles := uploadEmptyFiles;
            CommaSeparateEvents := commaSeparateEvents;
            BundleSendTimeout := bundleSendTimeout; BundleSizeMax := bundleSizeMax;
            FileHandlerCompressData := fileHandlerCompressData;
            TLSConfig := Some tlsConfig;
            PerformFeedPostprocessing := performFeedPostprocessing;
            CbAPIToken := cbAPIToken; CbAPIVerifySSL := cbAPIVerifySSL;
            CbAPIProxyUrl := cbAPIProxyUrl; KafkaBrokers := kafkaBrokers;
            KafkaTopicSuffix := kafkaTopicSuffix; AuditingEnabled := auditingEnabled;
            AuditRedisHost := auditRedisHost;
            AuditRedisDatabaseNumber := auditRedisDatabaseNumber;
            AuditPipelineSize := auditPipelineSize; SplunkToken := splunkToken;
            AuditLog := auditLog |},
         error_of errs)
    end
  end.

(* ===================================================================== *)
(** ** The bundle being uploaded                                          *)
(* ===================================================================== *)

(** Modelled from the spec: the struct [UploadStatus] is declared
    outside the files at hand. "Result of one upload attempt: file
    name/bundle identifier, outcome code, and an optional error detail";
    the field names are the ones [Upload] writes, [result] being a Go
    [error] ([nil] on success). *)
Record UploadStatus := mkUploadStatus {
  fileName : string;
  result : option error;
  status : Z
}.

(** Modelled from the spec: the struct [UploadEvent] is declared outside
    the files at hand. "Opaque pre-serialized text plus its ordinal
    position within the bundle"; [EventText] is the field the post
    templates of [config.go] read. *)
Record UploadEvent := mkUploadEvent {
  EventSeq : Z;
  EventText : string
}.

(** Modelled from the spec: the struct [UploadData] is declared outside
    the files at hand. The data the post template is executed on, with
    the fields [Upload] and the post templates use; [Events] is a
    channel, here the sequence of events received from it. *)
Record UploadData := mkUploadData {
  FileName : string;
  FileSize : Z;
  Events : list UploadEvent
}.

Definition UploadEvent_value (e : UploadEvent) : value :=
  VStruct [("EventSeq", VInt (EventSeq e)); ("EventText", VString (EventText e))].

Definition UploadData_value (d : UploadData) : value :=
  VStruct [("FileName", VString (FileName d)); ("FileSize", VInt (FileSize d));
           ("Events", VChan (UploadEvent_value <$> Events d))].

(** The bundle file handed to [Upload], an [*os.File]: what [fp.Stat()]
    reports as its size, and the event records it holds, in order ("an
    ordered sequence of EventRecord"). *)
Record os_File := mk_os_File {
  file_Stat : error + Z;
  file_records : list string
}.

(** Modelled from the spec: the loop of [convertFileIntoTemplate] over
    the records from position [i] on. *)
Fixpoint convertRecords (records : list string) (i : Z)
    (firstEventTemplate subsequentEventTemplate : Template) : list UploadEvent :=
  match records with
  | [] => []
  | eventText :: rest =>
      let t := if i =? 0 then firstEventTemplate else subsequentEventTemplate in
      {| EventSeq := i; EventText := fst (template_Execute t (VString eventText)) |}
      :: convertRecords rest (i + 1) firstEventTemplate subsequentEventTemplate
  end.

(** Modelled from the spec: [convertFileIntoTemplate] is not among the
    files at hand. "For each record in bundle order, [the renderer]
    applies the first-record template to the first record and the
    subsequent-record template to every following record"; each result is
    sent on [events] with its ordinal position. The spec does not say what
    is sent when a record template fails; the text written up to the
    failure is kept here (the templates of the two behaviours cannot fail
    on a text record). *)
Definition convertFileIntoTemplate (fp : os_File)
    (firstEventTemplate subsequentEventTemplate : Template) : list UploadEvent :=
  convertRecords (file_records fp) 0 firstEventTemplate subsequentEventTemplate.

(** [http.NewRequest("POST", dest, body)]: [None] when the URL is refused. *)
Definition http_NewRequest (env : Env) (method url body : string) : option Request :=
  if url_Parse_ok env url
  then Some {| Method := method; URL := url; Header := ∅; RequestBody := body |}
  else None.

(** [request.Header.Set(key, value)] for a key in canonical form, as the
    keys stored by [Initialize] are. *)
Definition Header_Set (key value : string) (r : Request) : Request :=
  {| Method := Method r; URL := URL r;
     Header := <[key := [value]]> (Header r); RequestBody := RequestBody r |}.

(** [ioutil.ReadAll(resp.Body)] *)
Definition ioutil_ReadAll (body : string * option error) : string * option error := body.

(** [fmt.Errorf] with the format already expanded. *)
Definition fmt_Errorf (text : string) : error := errorString text.

Definition newline : string := String "010" "".

(* ===================================================================== *)
(** ** [HttpBehavior]                                                     *)
(* ===================================================================== *)

Module HttpBehavior.

Record t := mk {
  dest : string;
  headers : gmap string string;
  client : option http_Client;
  httpPostTemplate : option Template;
  firstEventTemplate : option Template;
  subsequentEventTemplate : option Template
}.

(** [Initialize(dest)]: the receiver after the call and the returned
    error. [config] is the package-level configuration. *)
Definition Initialize (config : Configuration) (this : t) (dest : string)
    : Outcome (t * option error) :=
  let httpPostTemplate := HttpPostTemplate config in
  run firstEventTemplate <-
    template_Must (template_Parse (template_New "first_event") "{{.}}");
  run subsequentEventTemplate <-
    template_Must (template_Parse (template_New "subsequent_event")
                     (newline +:+ ", {{.}}"));
  let headers : gmap string string := ∅ in
  (* add authorization token, if applicable *)
  let headers :=
    match HttpAuthorizationToken config with
    | Some token => <["Authorization" := token]> headers
    | None => headers
    end in
  run headers <-
    match HttpContentType config with
    | Some contentType => Returned (<["Content-Type" := contentType]> headers)
    | None => Panicked "invalid memory address or nil pointer dereference"
    end;
  let transport := {| TLSClientConfig := TLSConfig config |} in
  Returned ({| dest := dest; headers := headers;
               client := Some {| Transport := transport |};
               httpPostTemplate := httpPostTemplate;
               firstEventTemplate := Some firstEventTemplate;
               subsequentEventTemplate := Some subsequentEventTemplate |},
            None).

Definition Key (this : t) : string := dest this.
Definition String (this : t) : string := "HTTP POST " +:+ Key this.

Record HttpStatistics := mkHttpStatistics { Destination : string }.
Definition Statistics (this : t) : HttpStatistics := {| Destination := dest this |}.

(** The first part of [Upload]: the request handed to [client.Do]. The
    body is what the goroutine writes into the pipe. A [nil] template
    or a [nil] request is dereferenced, which panics. *)
Definition Upload_request (env : Env) (this : t) (fileName : string) (fp : os_File)
    : Outcome Request :=
  match httpPostTemplate this, firstEventTemplate this, subsequentEventTemplate this with
  | Some post, Some first, Some subsequent =>
      let uploadData :=
        {| FileName := fileName;
           FileSize := match file_Stat fp with inr size => size | inl _ => 0 end;
           Events := convertFileIntoTemplate fp first subsequent |} in
      let body := fst (template_Execute post (UploadData_value uploadData)) in
      match http_NewRequest env "POST" (dest this) body with
      | Some request =>
          (* Set the header values of the post *)
          Returned (map_fold Header_Set request (headers this))
      | None => Panicked "invalid memory address or nil pointer dereference"
      end
  | _, _, _ => Panicked "invalid memory address or nil pointer dereference"
  end.

(** [Upload(fileName, fp)] *)
Definition Upload (env : Env) (this : t) (fileName : string) (fp : os_File)
    : Outcome UploadStatus :=
  run request <- Upload_request env this fileName fp;
  match client this with
  | None => Panicked "invalid memory address or nil pointer dereference"
  | Some client =>
      (* Execute the POST *)
      match http_Client_Do env client request with
      | inl err => Returned {| fileName := fileName; result := Some err; status := 0 |}
      | inr resp =>
          (* Some sort of issue with the POST *)
          if negb (StatusCode resp =? 200) then
            let '(body, _) := ioutil_ReadAll (Body resp) in
            let errorData := Status resp +:+ newline +:+ body in
            Returned {| fileName := fileName;
                        result := Some (fmt_Errorf ("HTTP request failed: Error code " +:+ errorData));
                        status := StatusCode resp |}
          else Returned {| fileName := fileName; result := None; status := 200 |}
      end
  end.

End HttpBehavior.

(* ===================================================================== *)
(** ** [SplunkBehavior]                                                   *)
(* ===================================================================== *)

Module SplunkBehavior.

Record t := mk {
  dest : string;
  headers : gmap string string;
  client : option http_Client;
  httpPostTemplate : option Template;
  firstEventTemplate : option Template;
  subsequentEventTemplate : option Template
}.

(** [Initialize(dest)] *)
Definition Initialize (config : Configuration) (this : t) (dest : string)
    : Outcome (t * option error) :=
  let httpPostTemplate := HttpPostTemplate config in
  run firstEventTemplate <-
    template_Must (template_Parse (template_New "first_event") "{{.}}");
  run subsequentEventTemplate <-
    template_Must (template_Parse (template_New "subsequent_event") "{{.}}");
  let headers : gmap string string := ∅ in
  (* add authorization token, if applicable *)
  let headers :=
    match SplunkToken config with
    | Some token => <["Authorization" := "Splunk " +:+ token]> headers
    | None => headers
    end in
  run headers <-
    match HttpContentType config with
    | Some contentType => Returned (<["Content-Type" := contentType]> headers)
    | None => Panicked "invalid memory address or nil pointer dereference"
    end;
  let transport := {| TLSClientConfig := TLSConfig config |} in
  Returned ({| dest := dest; headers := headers;
               client := Some {| Transport := transport |};
               httpPostTemplate := httpPostTemplate;
               firstEventTemplate := Some firstEventTemplate;
               subsequentEventTemplate := Some subsequentEventTemplate |},
            None).

Definition Key (this : t) : string := dest this.
Definition String (this : t) : string := "Splunk HTTP Event Collector " +:+ Key this.

Record SplunkStatistics := mkSplunkStatistics { Destination : string }.
Definition Statistics (this : t) : SplunkStatistics := {| Destination := dest this |}.

(** The first part of [Upload]: the request handed to [client.Do]. *)
Definition Upload_request (env : Env) (this : t) (fileName : string) (fp : os_File)
    : Outcome Request :=
  match httpPostTemplate this, firstEventTemplate this, subsequentEventTemplate this with
  | Some post, Some first, Some subsequent =>
      let uploadData :=
        {| FileName := fileName;
           FileSize := match file_Stat fp with inr size => size | inl _ => 0 end;
           Events := convertFileIntoTemplate fp first subsequent |} in
      let body := fst (template_Execute post (UploadData_value uploadData)) in
      match http_NewRequest env "POST" (dest this) body with
      | Some request =>
          (* Set the header values of the post *)
          Returned (map_fold Header_Set request (headers this))
      | None => Panicked "invalid memory address or nil pointer dereference"
      end
  | _, _, _ => Panicked "invalid memory address or nil pointer dereference"
  end.

(** [Upload(fileName, fp)] *)
Definition Upload (env : Env) (this : t) (fileName : string) (fp : os_File)
    : Outcome UploadStatus :=
  run request <- Upload_request env this fileName fp;
  match client this with
  | None => Panicked "invalid memory address or nil pointer dereference"
  | Some client =>
      (* Execute the POST *)
      match http_Client_Do env client request with
      | inl err => Returned {| fileName := fileName; result := Some err; status := 0 |}
      | inr resp =>
          (* Some sort of issue with the POST *)
          if negb (StatusCode resp =? 200) then
            let '(body, _) := ioutil_ReadAll (Body resp) in
            let errorData := Status resp +:+ newline +:+ body in
            Returned {| fileName := fileName;
                        result := Some (fmt_Errorf ("HTTP request failed: Error code " +:+ errorData));
                        status := StatusCode resp |}
          else Returned {| fileName := fileName; result := None; status := 200 |}
      end
  end.

End SplunkBehavior.

(* ===================================================================== *)
(** ** Notions used in the statements                                     *)
(* ===================================================================== *)

(** The output type as [ParseConfig] uses it: trimmed, then lower case. *)
Definition normalize (env : Env) (outType : string) : string :=
  strings_ToLower env (strings_TrimSpace env outType).

(** What a call returned, if it did. *)
Definition returned {A} (o : Outcome A) : option A :=
  match o with
  | Returned a => Some a
  | _ => None
  end.

(** The host [env] with [input] as the content of the file [fn]. *)
Definition with_file (env : Env) (fn : string) (input : File) : Env :=
  {| ini_LoadFile := fun name => if String.eqb name fn then inr input else ini_LoadFile env name;
     strings_ToLower := strings_ToLower env;
     strings_TrimSpace := strings_TrimSpace env;
     tls_LoadX509KeyPair := tls_LoadX509KeyPair env;
     ioutil_ReadFile := ioutil_ReadFile env;
     url_Parse_ok := url_Parse_ok env;
     text_template := text_template env;
     http_Client_Do := http_Client_Do env |}.

(** The file with the line [key = val] put into [section], and with the
    line for [key] taken out of it. *)
Definition set_key (input : File) (section key val : string) : File :=
  <[section := <[key := val]> (default ∅ (input !! section))]> input.

Definition unset_key (input : File) (section key : string) : File :=
  alter (delete key) section input.

(** [msg] is among the errors collected in [errs]. *)
Definition has_error (msg : string) (errs : ConfigurationError) : Prop :=
  Empty errs = false ∧ msg ∈ Errors errs.

(** What the status [st] of an upload has to say when its POST ended as
    [post], the result of [client.Do]. *)
Definition status_contract (post : error + Response) (st : UploadStatus) : Prop :=
  (status st = 200 ↔ ∃ resp, post = inr resp ∧ StatusCode resp = 200)
  ∧ (∀ err, post = inl err → status st = 0 ∧ result st = Some err)
  ∧ (∀ resp, post = inr resp → StatusCode resp ≠ 200 →
       status st = StatusCode resp
       ∧ ∃ detail, result st = Some detail ∧ error_Error detail ≠ "").

(** What a record template writes for the record [eventText]. *)
Definition emits (t : option Template) (eventText : string) : option written :=
  (fun t => template_Execute t (VString eventText)) <$> t.

(** The post template [ParseConfig] installs for the HTTP output when the
    file gives none and the output format is JSON. *)
Definition defaultHttpPostTemplate : option Template :=
  template_Parse (template_New "http_post_output") httpJSONPostTemplate.

(** The value of a boolean key, when the key is there, is one
    [strconv.ParseBool] accepts. *)
Definition parses_bool (val : option string) : Prop :=
  ∀ v, val = Some v → is_Some (strconv_ParseBool v).

(** The user name or the password read from the configuration file is
    empty, which sends [ParseConfig] to [/etc/cb/cb.conf]. *)
Definition credentials_incomplete (input : File) : Prop :=
  default "cb" (Get input "bridge" "rabbit_mq_username") = ""
  ∨ default "" (Get input "bridge" "rabbit_mq_password") = "".

(** No byte of [s] is [c]. *)
Fixpoint free_of (c : ascii) (s : string) : Prop :=
  match s with
  | EmptyString => True
  | String c' rest => c' ≠ c ∧ free_of c rest
  end.

(** The routing keys one entry of the table of [parseEventTypes] brings
    in, given the value of its key: all of the entry for [all], none for
    [0], and otherwise the pieces of the value, in lower case, between
    commas. *)
Definition keys_of_value (env : Env) (eventList : list string) (val : option string)
    : list string :=
  match val with
  | Some val =>
      let val := strings_ToLower env val in
      if String.eqb val "all" then eventList
      else if String.eqb val "0" then []
      else strings_Split_comma val
  | None => []
  end.

(** The texts of the events, one after the other. *)
Definition event_texts (events : list UploadEvent) : string :=
  foldr (fun e acc => EventText e +:+ acc) "" events.

(** The same with each text inside the envelope the Splunk collector
    expects. *)
Definition splunk_events (events : list UploadEvent) : string :=
  foldr (fun e acc =>
           quoted "{'sourcetype':'bit9:carbonblack:json','event':" +:+ EventText e
           +:+ "}" +:+ acc) "" events.

(* ===================================================================== *)
(** ** A sample host                                                      *)
(* ===================================================================== *)

(** Lower case for ASCII text, which is how [strings.ToLower] acts on it;
    [trim] likewise stands for [strings.TrimSpace] on text whose white
    space is blanks, tabs and line ends. *)
Definition ascii_lower (c : ascii) : ascii :=
  let n := nat_of_ascii c in
  if ((65 <=? n) && (n <=? 90))%nat then ascii_of_nat (n + 32) else c.

Fixpoint ascii_ToLower (s : string) : string :=
  match s with
  | EmptyString => EmptyString
  | String c rest => String (ascii_lower c) (ascii_ToLower rest)
  end.

(** A template outside the fragment of the source's literals, and the
    [text/template] of the sample host, which is given on this one text:
    the template writes [x] unless the file name is empty. *)
Definition ifTemplate : string := "{{if .FileName}}x{{end}}".

Definition sample_text_template (text : string) : option (value → written) :=
  if String.eqb text ifTemplate then
    Some (fun data =>
            match eval_field ["FileName"] data with
            | Some (VString EmptyString) => ("", None)
            | Some _ => ("x", None)
            | None => ("", Some (errorString "template: can't evaluate"))
            end)
  else None.

(** A host with one configuration file [input] (whatever its name), no
    other readable file, and a server that answers every request with
    [answer]. *)
Definition sampleEnv (input : File) (answer : error + Response) : Env :=
  {| ini_LoadFile := fun fn =>
       if String.eqb fn "/etc/cb/cb.conf" then inl (errorString "no such file") else inr input;
     strings_ToLower := ascii_ToLower;
     strings_TrimSpace := trim;
     tls_LoadX509KeyPair := fun _ _ => inl (errorString "no such file");
     ioutil_ReadFile := fun _ => inl (errorString "no such file");
     url_Parse_ok := fun _ => true;
     text_template := sample_text_template;
     http_Client_Do := fun _ _ => answer |}.

Definition keys (l : list (string * string)) : gmap string string := list_to_map l.

Definition httpConf : File :=
  {[ "bridge" := keys [("rabbit_mq_password", "secret"); ("output_type", "http");
                       ("httpout", "https://collector.example/events")];
     "http" := keys [("authorization_token", "Bearer abc")] ]}.

Definition splunkConf : File :=
  {[ "bridge" := keys [("rabbit_mq_password", "secret"); ("output_type", "splunk");
                       ("splunkout", "https://splunk.example:8088/services/collector")];
     "splunk" := keys [("hec_token", "0123"); ("upload_empty_files", "true");
                       ("content_type", "text/plain")] ]}.

Definition timeoutConf (val : string) : File :=
  {[ "bridge" := keys [("rabbit_mq_password", "secret"); ("output_type", "http");
                       ("httpout", "https://collector.example/events")];
     "http" := keys [("bundle_send_timeout", val)] ]}.

Definition noDestinationConf : File :=
  {[ "bridge" := keys [("rabbit_mq_password", "secret"); ("output_type", "http")] ]}.

Definition okAnswer : error + Response :=
  inr {| Status := "200 OK"; StatusCode := 200; Body := ("", None) |}.

Definition failAnswer : error + Response :=
  inr {| Status := "500 Internal Server Error"; StatusCode := 500; Body := ("boom", None) |}.

(** [HttpBehavior{}] and [SplunkBehavior{}] before [Initialize]. *)
Definition Http_zero : HttpBehavior.t := HttpBehavior.mk "" ∅ None None None None.
Definition Splunk_zero : SplunkBehavior.t := SplunkBehavior.mk "" ∅ None None None None.

Definition threeRecords : os_File :=
  {| file_Stat := inr 6; file_records := ["a"; "b"; "c"] |}.

(** The configuration parsed from a sample, or the zero configuration. *)
Definition parsed (input : File) : Configuration :=
  from_option fst Configuration_zero
    (returned (ParseConfig (sampleEnv input okAnswer) "forwarder.conf")).

(** The HTTP behaviour set up from the http sample, its client, and the
    request of an upload of three records. *)
Definition httpConfig : Configuration := Eval vm_compute in parsed httpConf.

Definition httpBehavior : HttpBehavior.t :=
  Eval vm_compute in
    from_option fst Http_zero
      (returned (HttpBehavior.Initialize httpConfig Http_zero (OutputParameters httpConfig))).

Definition httpClient : http_Client :=
  Eval vm_compute in
    default (mk_http_Client (mk_http_Transport None)) (HttpBehavior.client httpBehavior).

Definition httpRequest : Request :=
  Eval vm_compute in
    default (mkRequest "" "" ∅ "")
      (returned (HttpBehavior.Upload_request (sampleEnv httpConf okAnswer)
                   httpBehavior "bundle" threeRecords)).

(** The same for the Splunk behaviour and the splunk sample. *)
Definition splunkConfig : Configuration := Eval vm_compute in parsed splunkConf.

Definition splunkBehavior : SplunkBehavior.t :=
  Eval vm_compute in
    from_option fst Splunk_zero
      (returned (SplunkBehavior.Initialize splunkConfig Splunk_zero
                   (OutputParameters splunkConfig))).

Definition splunkRequest : Request :=
  Eval vm_compute in
    default (mkRequest "" "" ∅ "")
      (returned (SplunkBehavior.Upload_request (sampleEnv splunkConf okAnswer)
                   splunkBehavior "bundle" threeRecords)).

(** The sample without [httpout]: what is parsed, and the error. *)
Definition noDestinationConfig : Configuration := Eval vm_compute in parsed noDestinationConf.

Definition noDestinationErrors : ConfigurationError :=
  {| Errors := ["Missing value for key httpout, required by output type http"];
     Empty := false |}.

(** A sample for the s3 output: the output type and the output format
    written with blanks and capitals, a value of [compress_data] that is
    no boolean, TLS settings in the section of the output type, logs to
    watch, event types, and auditing switched on. *)
Definition s3Conf : File :=
  {[ "bridge" := keys [("rabbit_mq_password", "secret"); ("output_type", " S3 ");
                       ("s3out", "bucket"); ("output_format", " LEEF");
                       ("cb_server_url", "https://cb.example");
                       ("monitored_logs", "a.log,b.log");
                       ("events_watchlist", "ALL");
                       ("events_feed", "feed.storage.hit.#,feed.query.hit.#")];
     "s3" := keys [("compress_data", "maybe"); ("acl_policy", "private");
                   ("bundle_size_max", "2048");
                   ("tls_verify", "false"); ("insecure_tls", "1")];
     "audit" := keys [("enabled", "true"); ("redis_host", "redis.example")] ]}.

Definition s3Config : Configuration := Eval vm_compute in parsed s3Conf.

(** A sample with an output type the switch does not know. *)
Definition unknownConf : File :=
  {[ "bridge" := keys [("rabbit_mq_password", "secret"); ("output_type", "pigeon");
                       ("outfile", "/tmp/events")] ]}.

Definition unknownConfig : Configuration := Eval vm_compute in parsed unknownConf.

Definition unknownErrors : ConfigurationError :=
  {| Errors := ["Unknown output type: pigeon"]; Empty := false |}.

(** A sample without an output type. *)
Definition noOutputTypeConf : File :=
  {[ "bridge" := keys [("rabbit_mq_password", "secret"); ("httpout", "https://collector.example")];
     "http" := keys [("bundle_size_max", "2048")] ]}.

(** The http sample with auditing on and no Redis host. *)
Definition auditNoHostConf : File :=
  {[ "bridge" := keys [("rabbit_mq_password", "secret"); ("output_type", "http");
                       ("httpout", "https://collector.example/events")];
     "audit" := keys [("enabled", "true")] ]}.

(** The http sample with a client certificate and key, which the sample
    host cannot load. *)
Definition certConf : File :=
  {[ "bridge" := keys [("rabbit_mq_password", "secret"); ("output_type", "http");
                       ("httpout", "https://collector.example/events")];
     "http" := keys [("client_cert", "client.pem"); ("client_key", "client.key")] ]}.

(** The status of the upload of three records by the http sample when
    the server answers with 500. *)
Definition failedStatus : UploadStatus :=
  Eval vm_compute in
    default (mkUploadStatus "" None 0)
      (returned (HttpBehavior.Upload (sampleEnv httpConf failAnswer) httpBehavior
                   "bundle" threeRecords)).

(** A splunk sample whose post template uses [if], and which asks for
    [upload_empty_files = true]. *)
Definition ifTemplateConf : File :=
  {[ "bridge" := keys [("rabbit_mq_password", "secret"); ("output_type", "splunk");
                       ("splunkout", "https://splunk.example:8088/services/collector")];
     "splunk" := keys [("hec_token", "0123"); ("upload_empty_files", "true");
                       ("http_post_template", ifTemplate)] ]}.

Definition ifTemplateConfig : Configuration := Eval vm_compute in parsed ifTemplateConf.

(** The sample host with an [http.NewRequest] that refuses every URL. *)
Definition refusingEnv (input : File) (answer : error + Response) : Env :=
  {| ini_LoadFile := ini_LoadFile (sampleEnv input answer);
     strings_ToLower := ascii_ToLower;
     strings_TrimSpace := trim;
     tls_LoadX509KeyPair := tls_LoadX509KeyPair (sampleEnv input answer);
     ioutil_ReadFile := ioutil_ReadFile (sampleEnv input answer);
     url_Parse_ok := fun _ => false;
     text_template := sample_text_template;
     http_Client_Do := fun _ _ => answer |}.

(* ===================================================================== *)
(** ** Outcomes, numbers and strings                                      *)
(* ===================================================================== *)

Lemma obind_Returned {A B} (m : Outcome A) (k : A → Outcome B) (b : B) :
  obind m k = Returned b → ∃ a, m = Returned a ∧ k a = Returned b.
Proof. destruct m; simpl; intros H; try discriminate. eauto. Qed.

Lemma obind_ext {A B} (m m' : Outcome A) (k k' : A → Outcome B) :
  m = m' → (∀ a, k a = k' a) → obind m k = obind m' k'.
Proof. intros <- Hk. destruct m; simpl; auto. Qed.

Lemma Returned_pair_inv {A B} (a a' : A) (b b' : B) :
  Returned (a, b) = Returned (a', b') → a = a' ∧ b = b'.
Proof. by intros [=]. Qed.

Lemma wrap64_in_range (z : Z) : int64_min ≤ z ≤ int64_max → wrap64 z = z.
Proof.
  unfold wrap64, int64_min, int64_max. intros Hz.
  rewrite Z.mod_small by lia. lia.
Qed.

Example wrap64_past_max : wrap64 (int64_max + 1) = int64_min.
Proof. reflexivity. Qed.

Example ParseInt_samples :
  strconv_ParseInt "300" = Some 300 ∧ strconv_ParseInt "-7" = Some (-7)
  ∧ strconv_ParseInt "+007" = Some 7 ∧ strconv_ParseInt "" = None
  ∧ strconv_ParseInt "-" = None ∧ strconv_ParseInt "5m" = None
  ∧ strconv_ParseInt " 5" = None ∧ strconv_ParseInt "1_000" = None
  ∧ strconv_ParseInt "9223372036854775807" = Some int64_max
  ∧ strconv_ParseInt "9223372036854775808" = None
  ∧ strconv_ParseInt "-9223372036854775808" = Some int64_min.
Proof. repeat split; reflexivity. Qed.

Lemma append_empty_r (s : string) : s +:+ "" = s.
Proof.
  induction s as [|c s IH]; [done|].
  change (String c (s +:+ "") = String c s). by f_equal.
Qed.

Lemma append_assoc (s1 s2 s3 : string) : (s1 +:+ s2) +:+ s3 = s1 +:+ (s2 +:+ s3).
Proof.
  induction s1 as [|c s1 IH]; [done|].
  change (String c ((s1 +:+ s2) +:+ s3) = String c (s1 +:+ (s2 +:+ s3))). by f_equal.
Qed.

(* ===================================================================== *)
(** ** Templates                                                          *)
(* ===================================================================== *)

Example parse_sample :
  template_Parse (template_New "t")
    "<{{.FileName}}> [{{range .Events}}{{ .EventText }}{{end}}]{{.}}"
  = Some {| tmpl_name := "t";
            tmpl_Root := [TextNode "<"; ActionNode (ArgField ["FileName"]);
                          TextNode "> [";
                          RangeNode (ArgField ["Events"]) [ActionNode (ArgField ["EventText"])];
                          TextNode "]"; ActionNode ArgDot] |}.
Proof. reflexivity. Qed.

Example parse_unclosed : template_Parse (template_New "t") "{{range .Events}}x" = None.
Proof. reflexivity. Qed.

Lemma defaultHttpPostTemplate_tree :
  defaultHttpPostTemplate
  = Some {| tmpl_name := "http_post_output";
            tmpl_Root :=
              [TextNode (quoted "{'filename': '");
               ActionNode (ArgField ["FileName"]);
               TextNode (quoted "', 'service': 'carbonblack', 'alerts':[");
               RangeNode (ArgField ["Events"]) [ActionNode (ArgField ["EventText"])];
               TextNode "]}"] |}.
Proof. vm_compute; reflexivity. Qed.

(** The default post templates of the source parse, for either format. *)
Lemma parsePostTemplate_default env (c_OutputFormat : Z) (jsonDefault : string) :
  is_Some (template_Parse (template_New "http_post_output") jsonDefault) →
  ∃ t, parsePostTemplate env None c_OutputFormat jsonDefault = Returned t.
Proof.
  intros [t Ht]. unfold parsePostTemplate.
  destruct (c_OutputFormat =? JSONOutputFormat).
  - rewrite Ht. by eexists.
  - by eexists.
Qed.

(** A post template of the configuration file is parsed by the host, and
    [parsePostTemplate] returns whenever the host accepts the text, whatever
    constructs of [text/template] it uses. *)
Lemma parsePostTemplate_returns env (postTemplate : option string)
    (c_OutputFormat : Z) (jsonDefault : string) :
  (∀ text, postTemplate = Some text → is_Some (text_template env text)) →
  is_Some (template_Parse (template_New "http_post_output") jsonDefault) →
  ∃ t, parsePostTemplate env postTemplate c_OutputFormat jsonDefault = Returned t.
Proof.
  intros Htext Hdefault. destruct postTemplate as [text|].
  - destruct (Htext text eq_refl) as [exec Hexec].
    unfold parsePostTemplate, template_Parse_text. rewrite Hexec. by eexists.
  - by apply parsePostTemplate_default.
Qed.

(** A record template made of text and [{{.}}] cannot fail on a text
    record. *)
Lemma template_Execute_text_and_dot name text eventText :
  template_Execute {| tmpl_name := name; tmpl_Root := [TextNode text; ActionNode ArgDot] |}
    (VString eventText)
  = (text +:+ eventText, None).
Proof. cbn. by rewrite append_empty_r. Qed.

Lemma template_Execute_dot name eventText :
  template_Execute {| tmpl_name := name; tmpl_Root := [ActionNode ArgDot] |}
    (VString eventText)
  = (eventText, None).
Proof. cbn. by rewrite append_empty_r. Qed.

(* ===================================================================== *)
(** ** Editing the configuration file                                     *)
(* ===================================================================== *)

Lemma Get_set_key_eq (input : File) section key val :
  Get (set_key input section key val) section key = Some val.
Proof. unfold Get, set_key. rewrite lookup_insert_eq. simpl. by rewrite lookup_insert_eq. Qed.

Lemma Get_set_key_ne (input : File) section key val s k :
  s ≠ section ∨ k ≠ key →
  Get (set_key input section key val) s k = Get input s k.
Proof.
  intros Hne. unfold Get, set_key.
  destruct (decide (section = s)) as [->|Hs].
  - rewrite lookup_insert_eq. simpl.
    destruct Hne as [?|Hk]; [done|]. rewrite lookup_insert_ne by done.
    by destruct (input !! s).
  - by rewrite lookup_insert_ne.
Qed.

Lemma Get_unset_key_eq (input : File) section key :
  Get (unset_key input section key) section key = None.
Proof.
  unfold Get, unset_key. rewrite lookup_alter_eq.
  destruct (input !! section); simpl; [apply lookup_delete_eq|done].
Qed.

Lemma Get_unset_key_ne (input : File) section key s k :
  s ≠ section ∨ k ≠ key →
  Get (unset_key input section key) s k = Get input s k.
Proof.
  intros Hne. unfold Get, unset_key.
  destruct (decide (section = s)) as [->|Hs].
  - rewrite lookup_alter_eq. destruct Hne as [?|Hk]; [done|].
    destruct (input !! s); simpl; [by rewrite lookup_delete_ne|done].
  - by rewrite lookup_alter_ne.
Qed.

Lemma with_file_load env fn input : ini_LoadFile (with_file env fn input) fn = inr input.
Proof. cbn [with_file ini_LoadFile]. by rewrite String.eqb_refl. Qed.

(** [parseCbConf] reads two keys of [/etc/cb/cb.conf]; an edit of the
    configuration file that leaves them alone leaves its result alone,
    also when the two files are one. *)
Lemma parseCbConf_with_file env fn input input' :
  ini_LoadFile env fn = inr input →
  Get input' "" "RabbitMQUser" = Get input "" "RabbitMQUser" →
  Get input' "" "RabbitMQPassword" = Get input "" "RabbitMQPassword" →
  parseCbConf (with_file env fn input') = parseCbConf env.
Proof.
  intros Hload Hu Hp. unfold parseCbConf. cbn [with_file ini_LoadFile].
  destruct (String.eqb_spec "/etc/cb/cb.conf" fn) as [<-|_]; [|done].
  by rewrite Hload, Hu, Hp.
Qed.

(** [parseEventTypes] reads the keys of its table in [bridge]. *)
Lemma parseEventTypes_with_file env fn input input' c_EventTypes :
  Forall (fun entry => Get input' "bridge" entry.1 = Get input "bridge" entry.1) eventTypes →
  parseEventTypes (with_file env fn input') c_EventTypes input'
  = parseEventTypes env c_EventTypes input.
Proof.
  unfold parseEventTypes. cbn [with_file strings_ToLower].
  generalize eventTypes as table. intros table Hall.
  assert (Hfold : ∀ acc,
    foldl (fun acc '(configKey, eventList) =>
             match Get input' "bridge" configKey with
             | Some val =>
                 let val := strings_ToLower env val in
                 if String.eqb val "all" then acc ++ eventList
                 else if String.eqb val "0" then acc
                 else acc ++ strings_Split_comma val
             | None => acc
             end) acc table
    = foldl (fun acc '(configKey, eventList) =>
             match Get input "bridge" configKey with
             | Some val =>
                 let val := strings_ToLower env val in
                 if String.eqb val "all" then acc ++ eventList
                 else if String.eqb val "0" then acc
                 else acc ++ strings_Split_comma val
             | None => acc
             end) acc table).
  { induction Hall as [|[configKey eventList] table Hhead _ IH]; intros acc; [done|].
    cbn [foldl]. simpl in Hhead. rewrite Hhead. apply IH. }
  by rewrite Hfold.
Qed.

Ltac agree_side := solve [discriminate | left; discriminate | right; discriminate].

(** Two configuration files that differ only in lines [ParseConfig]
    does not read ([content_type] under [splunk]), or in a
    [bundle_send_timeout] line that comes to the same timeout, are parsed
    to the same outcome: the same configuration and the same error. *)
Lemma ParseConfig_with_file env fn input input' :
  ini_LoadFile env fn = inr input →
  (∀ s k, k ≠ "bundle_send_timeout" → s ≠ "splunk" ∨ k ≠ "content_type" →
          Get input' s k = Get input s k) →
  (∀ s, seconds_setting (5 * time_Minute) (Get input' s "bundle_send_timeout")
        = seconds_setting (5 * time_Minute) (Get input s "bundle_send_timeout")) →
  ParseConfig (with_file env fn input') fn = ParseConfig env fn.
Proof.
  intros Hload Hget Htime.
  assert (Hcb : parseCbConf (with_file env fn input') = parseCbConf env).
  { apply (parseCbConf_with_file _ _ input); [done|..]; apply Hget; agree_side. }
  assert (Hkey : ∀ case, Get input' "bridge" (case_parameterKey case)
                         = Get input "bridge" (case_parameterKey case)).
  { intros []; apply Hget; agree_side. }
  assert (Hev : parseEventTypes (with_file env fn input') [] input'
                = parseEventTypes env [] input).
  { apply parseEventTypes_with_file. unfold eventTypes.
    repeat (constructor; [apply Hget; agree_side|]). constructor. }
  unfold ParseConfig. rewrite with_file_load, Hload, Hcb.
  cbn [with_file strings_ToLower strings_TrimSpace].
  rewrite (Hget "bridge" "output_type") by agree_side.
  destruct (Get input "bridge" "output_type") as [ot|]; cbv zeta.
  - apply obind_ext.
    { destruct (switch_outType _); by rewrite ?Hget by agree_side. }
    intros tpl. apply obind_ext.
    { by rewrite !Hget by agree_side. }
    intros redis. apply obind_ext.
    { unfold configureTLS. cbn [with_file tls_LoadX509KeyPair ioutil_ReadFile].
      by rewrite !Hget by agree_side. }
    intros tlsc. rewrite !Htime, !Hev, !Hkey. unfold parseMonitoredLogs.
    rewrite !Hget by agree_side. reflexivity.
  - rewrite !Hget by agree_side. reflexivity.
Qed.

(* ===================================================================== *)
(** ** [Initialize]                                                       *)
(* ===================================================================== *)

(** Both [Initialize] functions stop in one place only: the dereference
    of [config.HttpContentType]. *)
Ltac invert_Initialize :=
  cbn [template_Must obind];
  destruct (HttpContentType _) as [contentType|]; [|discriminate];
  cbn [obind]; intros [= <- <-].

Lemma Http_Initialize_headers config this0 dest this err :
  HttpBehavior.Initialize config this0 dest = Returned (this, err) →
  err = None
  ∧ HttpBehavior.dest this = dest
  ∧ HttpBehavior.headers this !! "Authorization" = HttpAuthorizationToken config
  ∧ HttpBehavior.headers this !! "Content-Type" = HttpContentType config.
Proof.
  unfold HttpBehavior.Initialize. invert_Initialize. cbn.
  rewrite lookup_insert_ne by discriminate. rewrite lookup_insert_eq.
  destruct (HttpAuthorizationToken config); [by rewrite lookup_insert_eq|done].
Qed.

Lemma Splunk_Initialize_headers config this0 dest this err :
  SplunkBehavior.Initialize config this0 dest = Returned (this, err) →
  err = None
  ∧ SplunkBehavior.dest this = dest
  ∧ SplunkBehavior.headers this !! "Authorization"
    = (fun token => "Splunk " +:+ token) <$> SplunkToken config
  ∧ SplunkBehavior.headers this !! "Content-Type" = HttpContentType config.
Proof.
  unfold SplunkBehavior.Initialize. invert_Initialize. cbn.
  rewrite lookup_insert_ne by discriminate. rewrite lookup_insert_eq.
  destruct (SplunkToken config); [by rewrite lookup_insert_eq|done].
Qed.

(** The templates and the client [Initialize] installs. *)
Lemma Http_Initialize_templates config this0 dest this err :
  HttpBehavior.Initialize config this0 dest = Returned (this, err) →
  HttpBehavior.httpPostTemplate this = HttpPostTemplate config
  ∧ HttpBehavior.firstEventTemplate this
    = Some {| tmpl_name := "first_event"; tmpl_Root := [ActionNode ArgDot] |}
  ∧ HttpBehavior.subsequentEventTemplate this
    = Some {| tmpl_name := "subsequent_event";
              tmpl_Root := [TextNode (newline +:+ ", "); ActionNode ArgDot] |}
  ∧ HttpBehavior.client this
    = Some {| Transport := {| TLSClientConfig := TLSConfig config |} |}.
Proof. unfold HttpBehavior.Initialize. by invert_Initialize. Qed.

Lemma Splunk_Initialize_templates config this0 dest this err :
  SplunkBehavior.Initialize config this0 dest = Returned (this, err) →
  SplunkBehavior.httpPostTemplate this = HttpPostTemplate config
  ∧ SplunkBehavior.firstEventTemplate this
    = Some {| tmpl_name := "first_event"; tmpl_Root := [ActionNode ArgDot] |}
  ∧ SplunkBehavior.subsequentEventTemplate this
    = Some {| tmpl_name := "subsequent_event"; tmpl_Root := [ActionNode ArgDot] |}
  ∧ SplunkBehavior.client this
    = Some {| Transport := {| TLSClientConfig := TLSConfig config |} |}.
Proof. unfold SplunkBehavior.Initialize. by invert_Initialize. Qed.

(** [Initialize] returns as soon as the configuration has a content
    type, which [ParseConfig] sets for the http and splunk outputs. *)
Lemma Http_Initialize_returns config this0 dest contentType :
  HttpContentType config = Some contentType →
  ∃ this, HttpBehavior.Initialize config this0 dest = Returned (this, None).
Proof.
  intros Hct. unfold HttpBehavior.Initialize. cbn [template_Must obind].
  rewrite Hct. by eexists.
Qed.

Lemma Splunk_Initialize_returns config this0 dest contentType :
  HttpContentType config = Some contentType →
  ∃ this, SplunkBehavior.Initialize config this0 dest = Returned (this, None).
Proof.
  intros Hct. unfold SplunkBehavior.Initialize. cbn [template_Must obind].
  rewrite Hct. by eexists.
Qed.

(* ===================================================================== *)
(** ** [ParseConfig]                                                      *)
(* ===================================================================== *)

Lemma has_error_added msg errs : has_error msg (addErrorString_if true errs msg).
Proof. split; [done|]. cbn. set_solver. Qed.

Lemma has_error_addErrorString_if msg cond errs msg' :
  has_error msg errs → has_error msg (addErrorString_if cond errs msg').
Proof.
  intros [Hempty Hin]. destruct cond; [|done]. split; [done|]. cbn. set_solver.
Qed.

Lemma has_error_bool_setting_error msg errs val msg' :
  has_error msg errs → has_error msg (bool_setting_error errs val msg').
Proof.
  intros Herr. unfold bool_setting_error.
  destruct val as [v|]; [|done]. destruct (strconv_ParseBool v); [done|].
  by apply (has_error_addErrorString_if _ true).
Qed.

Lemma error_of_has_error msg errs :
  has_error msg errs → error_of errs = Some (errConfiguration errs).
Proof. intros [Hempty _]. unfold error_of. by rewrite Hempty. Qed.

(** A configuration that [ParseConfig] hands back without an error names
    an output type. *)
Lemma ParseConfig_nil_error env fn cfg :
  ParseConfig env fn = Returned (cfg, None) →
  ∃ input ot, ini_LoadFile env fn = inr input ∧ Get input "bridge" "output_type" = Some ot.
Proof.
  unfold ParseConfig. destruct (ini_LoadFile env fn) as [e|input]; [discriminate|].
  destruct (Get input "bridge" "output_type") as [ot|] eqn:Hot.
  - intros _. exists input, ot. split; [reflexivity|exact Hot].
  - cbv zeta. intros [=].
Qed.

(** [ParseConfig] returns when the file names an output type, every
    post template of its own is one [text/template] parses, whatever
    constructs it uses, and the file asks for none of the other things
    that can stop it: auditing, client certificates or a CA file. *)
Lemma ParseConfig_returns env fn input ot :
  ini_LoadFile env fn = inr input →
  Get input "bridge" "output_type" = Some ot →
  (∀ text, Get input "http" "http_post_template" = Some text →
           is_Some (text_template env text)) →
  (∀ text, Get input "splunk" "http_post_template" = Some text →
           is_Some (text_template env text)) →
  Get input "audit" "enabled" = None →
  Get input (normalize env ot) "client_cert" = None →
  Get input (normalize env ot) "ca_cert" = None →
  ∃ cfg err, ParseConfig env fn = Returned (cfg, err).
Proof.
  intros Hload Hot Hhttp Hsplunk Haudit Hcert Hca.
  unfold ParseConfig. rewrite Hload, Hot. cbv zeta.
  fold (normalize env ot). rewrite Haudit, Hcert, Hca.
  set (format := match Get input "bridge" "output_format" with
                 | Some val => _
                 | None => _
                 end).
  destruct (parsePostTemplate_returns env _ format httpJSONPostTemplate Hhttp)
    as [t1 Ht1]; [by eexists|].
  destruct (parsePostTemplate_returns env _ format splunkJSONPostTemplate Hsplunk)
    as [t2 Ht2]; [by eexists|].
  rewrite Ht1, Ht2.
  destruct (switch_outType (normalize env ot));
    cbn [obind bool_setting configureTLS nonempty]; by eexists _, _.
Qed.

Section Parsed.

(** A file that loads and names an output type, and what [ParseConfig]
    returned for it. *)
Context (env : Env) (fn : string) (input : File) (ot : string).
Context (cfg : Configuration) (err : option error).
Hypothesis Hload : ini_LoadFile env fn = inr input.
Hypothesis Hot : Get input "bridge" "output_type" = Some ot.
Hypothesis Hret : ParseConfig env fn = Returned (cfg, err).

Local Abbreviation outType := (normalize env ot).
Local Abbreviation parameterKey := (case_parameterKey (switch_outType (normalize env ot))).

(** From [H : ParseConfig env fn = Returned (cfg, err)] to the equation
    between the record built at the end of [ParseConfig] and [(cfg, err)];
    [Htpl] tells where the post template [tpl] comes from. *)
Ltac returned_record H tpl Htpl :=
  unfold ParseConfig in H; rewrite Hload, Hot in H; cbv zeta in H;
  fold (normalize env ot) in H;
  apply obind_Returned in H as (tpl & Htpl & H);
  let redis := fresh "redis" in
  let tlsc := fresh "tlsc" in
  apply obind_Returned in H as (redis & _ & H);
  apply obind_Returned in H as (tlsc & _ & H);
  apply Returned_pair_inv in H.

(** The fields that the bundling and the HTTP-family outputs read, as
    functions of the configuration file. *)
Lemma ParseConfig_fields :
  UploadEmptyFiles cfg =
    match Get input outType "upload_empty_files" ≫= strconv_ParseBool with
    | Some false => false
    | _ => if String.eqb outType "splunk" then false else true
    end
  ∧ BundleSizeMax cfg =
      int64_setting (10 * 1024 * 1024) (Get input outType "bundle_size_max")
  ∧ BundleSendTimeout cfg =
      seconds_setting (5 * time_Minute) (Get input outType "bundle_send_timeout")
  ∧ HttpContentType cfg =
      match switch_outType outType with
      | case_http | case_splunk =>
          Some (default "application/json" (Get input "http" "content_type"))
      | _ => None
      end
  ∧ HttpAuthorizationToken cfg =
      match switch_outType outType with
      | case_http => Get input "http" "authorization_token"
      | _ => None
      end
  ∧ SplunkToken cfg =
      match switch_outType outType with
      | case_splunk => Get input "splunk" "hec_token"
      | _ => None
      end
  ∧ CommaSeparateEvents cfg =
      match Get input "bridge" "output_format" with
      | Some val => negb (String.eqb (normalize env val) "leef")
      | None => true
      end.
Proof.
  pose proof Hret as H. returned_record H tpl Htpl. destruct H as [<- _].
  cbn [UploadEmptyFiles BundleSizeMax BundleSendTimeout HttpContentType
       HttpAuthorizationToken SplunkToken CommaSeparateEvents].
  repeat split.
  unfold normalize. destruct (Get input "bridge" "output_format"); [|done].
  by destruct (String.eqb _ "leef").
Qed.

(** C4. Whenever [ParseConfig] returns a configuration for a file that
    names an output type: [UploadEmptyFiles] is [true] when the output
    type is not splunk and its section has no [upload_empty_files] key
    (the default), and it is [false] when the output type is splunk,
    whatever the file says about [upload_empty_files]. *)
Theorem UploadEmptyFiles_default_true_splunk_false :
  (outType ≠ "splunk" →
   Get input outType "upload_empty_files" = None →
   UploadEmptyFiles cfg = true)
  ∧ (outType = "splunk" → UploadEmptyFiles cfg = false).
Proof.
  destruct ParseConfig_fields as (Hup & _). rewrite Hup. split.
  - intros Hne ->. simpl. by rewrite (proj2 (String.eqb_neq _ _) Hne).
  - intros ->. by repeat case_match.
Qed.

(** C8. Whenever [ParseConfig] returns a configuration for a file that
    names an output type and whose section for that output type sets
    neither [bundle_size_max] nor [bundle_send_timeout], [BundleSizeMax]
    is 10 MiB and [BundleSendTimeout] is five minutes. *)
Theorem bundle_defaults :
  Get input outType "bundle_size_max" = None →
  Get input outType "bundle_send_timeout" = None →
  BundleSizeMax cfg = 10 * 1024 * 1024 ∧ BundleSendTimeout cfg = 5 * time_Minute.
Proof.
  intros Hsize Htime. destruct ParseConfig_fields as (_ & Hs & Ht & _).
  by rewrite Hs, Ht, Hsize, Htime.
Qed.

(** C9, as the code has it. When the section of the output type holds
    [bundle_send_timeout = val]: if [val] parses as the integer [n] and
    [n] seconds fit a [time.Duration], that is -9223372036 <= n <=
    9223372036, then [BundleSendTimeout] is [n] seconds; if [val] does not
    parse, [BundleSendTimeout] is five minutes and the whole outcome of
    [ParseConfig], errors included, is the one for the file without that
    line. *)
Theorem bundle_send_timeout_seconds (val : string) :
  Get input outType "bundle_send_timeout" = Some val →
  (∀ n, strconv_ParseInt val = Some n → -9223372036 ≤ n ≤ 9223372036 →
        BundleSendTimeout cfg = n * time_Second)
  ∧ (strconv_ParseInt val = None →
     BundleSendTimeout cfg = 5 * time_Minute
     ∧ ParseConfig (with_file env fn (unset_key input outType "bundle_send_timeout")) fn
       = ParseConfig env fn).
Proof.
  intros Hval. destruct ParseConfig_fields as (_ & _ & Ht & _).
  rewrite Ht, Hval. cbv beta iota delta [seconds_setting]. split.
  - intros n -> Hn. apply wrap64_in_range.
    unfold int64_min, int64_max, time_Second. lia.
  - intros Hbad. rewrite Hbad. split; [done|].
    apply (ParseConfig_with_file env fn input); [done|..].
    + intros s k Hk _. apply Get_unset_key_ne. by right.
    + intros s. destruct (decide (s = outType)) as [->|Hs].
      * rewrite Get_unset_key_eq, Hval. cbn [seconds_setting]. by rewrite Hbad.
      * rewrite Get_unset_key_ne by (by left). done.
Qed.

(** C10. When the output type is splunk, [HttpContentType] is the value
    of [content_type] in the [http] section, or [application/json] when
    that section has no such key; and putting any [content_type] line
    into the [splunk] section changes nothing in what [ParseConfig]
    yields. *)
Theorem splunk_content_type_from_http_section :
  outType = "splunk" →
  HttpContentType cfg = Some (default "application/json" (Get input "http" "content_type"))
  ∧ ∀ val, ParseConfig (with_file env fn (set_key input "splunk" "content_type" val)) fn
           = ParseConfig env fn.
Proof.
  intros Hsplunk. destruct ParseConfig_fields as (_ & _ & _ & Hct & _).
  rewrite Hct, Hsplunk. split; [done|]. intros val.
  apply (ParseConfig_with_file env fn input); [done|..].
  - intros s k _ Hne. by apply Get_set_key_ne.
  - intros s. rewrite Get_set_key_ne; [done|]. right. discriminate.
Qed.

(** *** Missing destination parameters *)

(** C5, as the code has it. When the output type is one that names its
    destination under a key of [bridge] ([outfile], [tcpout], [udpout],
    [s3out], [httpout], [syslogout], [splunkout]) and that key is missing,
    whatever [ParseConfig] returns carries a [ConfigurationError] with the
    message for that key; [Initialize], of either behaviour, never
    returns an error. *)
Theorem missing_destination_is_a_ConfigurationError :
  parameterKey ≠ "" →
  Get input "bridge" parameterKey = None →
  (∃ errs, err = Some (errConfiguration errs)
           ∧ ("Missing value for key " +:+ parameterKey +:+
              ", required by output type " +:+ outType) ∈ Errors errs)
  ∧ (∀ config this0 dest this err',
       HttpBehavior.Initialize config this0 dest = Returned (this, err') → err' = None)
  ∧ (∀ config this0 dest this err',
       SplunkBehavior.Initialize config this0 dest = Returned (this, err') → err' = None).
Proof.
  intros Hkey Hmissing. split; [|split].
  - pose proof Hret as H. returned_record H tpl Htpl. destruct H as [_ <-].
    rewrite Hmissing.
    assert (Hlen : (0 <? String.length parameterKey)%nat = true).
    { destruct parameterKey; [done|reflexivity]. }
    rewrite Hlen. cbn [andb absent].
    match goal with |- ∃ errs, error_of ?e = _ ∧ ?msg ∈ _ =>
      assert (Herr : has_error msg e)
    end.
    { do 5 apply has_error_bool_setting_error. apply has_error_added. }
    eexists. split; [by eapply error_of_has_error|]. apply Herr.
  - intros config this0 dest this err' Hinit.
    by apply Http_Initialize_headers in Hinit as (-> & _).
  - intros config this0 dest this err' Hinit.
    by apply Splunk_Initialize_headers in Hinit as (-> & _).
Qed.

(** Without a post template of its own and without an output format, the
    http output gets the default JSON post template. *)
Lemma ParseConfig_default_http_post_template :
  outType = "http" →
  Get input "bridge" "output_format" = None →
  Get input "http" "http_post_template" = None →
  HttpPostTemplate cfg = defaultHttpPostTemplate.
Proof.
  intros Hhttp Hformat Hpost. pose proof Hret as H.
  returned_record H tpl Htpl. destruct H as [<- _]. cbn [HttpPostTemplate].
  rewrite Hhttp, Hformat, Hpost in Htpl.
  vm_compute in Htpl. injection Htpl as <-. vm_compute; reflexivity.
Qed.

End Parsed.

(** The splunk sample with a post template that uses [if] asks for
    [upload_empty_files = true] in its own section and still gets
    [false]. *)
Lemma UploadEmptyFiles_default_true_splunk_false_witness :
  Get ifTemplateConf "splunk" "http_post_template" = Some ifTemplate
  ∧ Get ifTemplateConf "splunk" "upload_empty_files" = Some "true"
  ∧ UploadEmptyFiles ifTemplateConfig = false.
Proof.
  split; [reflexivity|]. split; [reflexivity|].
  refine (proj2 (UploadEmptyFiles_default_true_splunk_false
                   (sampleEnv ifTemplateConf okAnswer) "forwarder.conf" ifTemplateConf
                   "splunk" ifTemplateConfig None eq_refl eq_refl _) eq_refl).
  vm_compute; reflexivity.
Defined.

Lemma bundle_defaults_witness :
  BundleSizeMax httpConfig = 10485760 ∧ BundleSendTimeout httpConfig = 300000000000.
Proof.
  refine (bundle_defaults (sampleEnv httpConf okAnswer) "forwarder.conf" httpConf "http"
            httpConfig None eq_refl eq_refl _ eq_refl eq_refl).
  vm_compute; reflexivity.
Defined.

Lemma bundle_send_timeout_seconds_witness :
  BundleSendTimeout (parsed (timeoutConf "90")) = 90 * time_Second.
Proof.
  refine (proj1 (bundle_send_timeout_seconds
                   (sampleEnv (timeoutConf "90") okAnswer) "forwarder.conf"
                   (timeoutConf "90") "http" (parsed (timeoutConf "90")) None
                   eq_refl eq_refl _ "90" eq_refl)
            90 eq_refl _).
  - vm_compute; reflexivity.
  - lia.
Defined.

(** C9 as stated fails: [bundle_send_timeout = 9223372037] parses as the
    integer 9223372037, and [BundleSendTimeout] comes out negative, not
    9223372037 seconds. *)
Lemma bundle_send_timeout_overflow :
  strconv_ParseInt "9223372037" = Some 9223372037
  ∧ (fun r => (BundleSendTimeout r.1, r.2))
      <$> returned (ParseConfig (sampleEnv (timeoutConf "9223372037") okAnswer)
                      "forwarder.conf")
    = Some (-9223372036709551616, None)
  ∧ -9223372036709551616 ≠ 9223372037 * time_Second.
Proof. split; [|split]; [vm_compute; reflexivity..|discriminate]. Qed.

(** The splunk sample carries [content_type = text/plain] in its [splunk]
    section and nothing in [http]. *)
Lemma splunk_content_type_from_http_section_witness :
  Get splunkConf "splunk" "content_type" = Some "text/plain"
  ∧ HttpContentType splunkConfig = Some "application/json".
Proof.
  split; [reflexivity|].
  refine (proj1 (splunk_content_type_from_http_section
                   (sampleEnv splunkConf okAnswer) "forwarder.conf" splunkConf "splunk"
                   splunkConfig None eq_refl eq_refl _ eq_refl)).
  vm_compute; reflexivity.
Defined.

(** C5 as stated fails: with [httpout] missing, [ParseConfig] reports the
    error, while [Initialize], given the configuration and the empty
    destination it holds, returns [nil]. *)
Lemma Initialize_accepts_missing_destination :
  ParseConfig (sampleEnv noDestinationConf okAnswer) "forwarder.conf"
  = Returned (noDestinationConfig, Some (errConfiguration noDestinationErrors))
  ∧ OutputParameters noDestinationConfig = ""
  ∧ snd <$> returned (HttpBehavior.Initialize noDestinationConfig Http_zero
                        (OutputParameters noDestinationConfig))
    = Some None.
Proof. split; [|split]; vm_compute; reflexivity. Qed.

Lemma missing_destination_is_a_ConfigurationError_witness :
  ∃ errs, Some (errConfiguration noDestinationErrors) = Some (errConfiguration errs)
          ∧ "Missing value for key httpout, required by output type http" ∈ Errors errs.
Proof.
  refine (proj1 (missing_destination_is_a_ConfigurationError
                   (sampleEnv noDestinationConf okAnswer) "forwarder.conf"
                   noDestinationConf "http" noDestinationConfig
                   (Some (errConfiguration noDestinationErrors))
                   eq_refl eq_refl _ _ eq_refl)).
  - vm_compute; reflexivity.
  - discriminate.
Defined.

(* ===================================================================== *)
(** ** [Upload]                                                           *)
(* ===================================================================== *)

(** The loop over [this.headers] stores each header as a one-value list. *)
Lemma map_fold_Header_Set (r : Request) (m : gmap string string) :
  map_fold Header_Set r m
  = {| Method := Method r; URL := URL r;
       Header := ((fun v => [v]) <$> m) ∪ Header r;
       RequestBody := RequestBody r |}.
Proof.
  apply (map_fold_weak_ind (fun (b : Request) (m : gmap string string) =>
    b = {| Method := Method r; URL := URL r;
           Header := ((fun v => [v]) <$> m) ∪ Header r;
           RequestBody := RequestBody r |})).
  - rewrite fmap_empty, (left_id_L ∅ (∪)). by destruct r.
  - intros key value m' b Hfresh ->. unfold Header_Set. cbn.
    by rewrite fmap_insert, insert_union_l.
Qed.

(** C3 as stated fails: with the JSON output format the separator of the
    HTTP behaviour is not a comma alone, and the Splunk behaviour writes
    no separator. *)
Lemma subsequent_record_separators :
  OutputFormat httpConfig = JSONOutputFormat
  ∧ CommaSeparateEvents httpConfig = true
  ∧ emits (HttpBehavior.subsequentEventTemplate httpBehavior) "b"
    = Some (newline +:+ ", b", None)
  ∧ newline +:+ ", b" ≠ ",b"
  ∧ OutputFormat splunkConfig = JSONOutputFormat
  ∧ emits (SplunkBehavior.subsequentEventTemplate splunkBehavior) "b" = Some ("b", None)
  ∧ "b" ≠ ",b".
Proof. repeat split; try (vm_compute; reflexivity); discriminate. Qed.

(** C3, as the code has it. Whatever the configuration, the first-record
    template of both behaviours writes the record as it is; the
    subsequent-record template of the HTTP behaviour writes a newline, a
    comma, a space and then the record, and that of the Splunk behaviour
    writes the record alone. *)
Theorem record_templates config dest eventText :
  (∀ this0 this err,
     HttpBehavior.Initialize config this0 dest = Returned (this, err) →
     emits (HttpBehavior.firstEventTemplate this) eventText = Some (eventText, None)
     ∧ emits (HttpBehavior.subsequentEventTemplate this) eventText
       = Some (newline +:+ ", " +:+ eventText, None))
  ∧ (∀ this0 this err,
     SplunkBehavior.Initialize config this0 dest = Returned (this, err) →
     emits (SplunkBehavior.firstEventTemplate this) eventText = Some (eventText, None)
     ∧ emits (SplunkBehavior.subsequentEventTemplate this) eventText
       = Some (eventText, None)).
Proof.
  split; intros this0 this err Hinit.
  - apply Http_Initialize_templates in Hinit as (_ & -> & -> & _).
    unfold emits. cbn [fmap option_fmap option_map].
    by rewrite template_Execute_dot, template_Execute_text_and_dot, append_assoc.
  - apply Splunk_Initialize_templates in Hinit as (_ & -> & -> & _).
    unfold emits. cbn [fmap option_fmap option_map].
    by rewrite !template_Execute_dot.
Qed.

Lemma record_templates_witness :
  emits (HttpBehavior.firstEventTemplate httpBehavior) "b" = Some ("b", None)
  ∧ emits (HttpBehavior.subsequentEventTemplate httpBehavior) "b"
    = Some (newline +:+ ", " +:+ "b", None).
Proof.
  refine (proj1 (record_templates httpConfig (OutputParameters httpConfig) "b")
            Http_zero httpBehavior None _).
  vm_compute; reflexivity.
Defined.

Section Uploads.

Context (env : Env) (name : string) (fp : os_File).

(** What the request of an upload carries, for both behaviours. *)
Lemma Http_Upload_request_inv this request :
  HttpBehavior.Upload_request env this name fp = Returned request →
  Method request = "POST" ∧ URL request = HttpBehavior.dest this
  ∧ Header request = (fun v => [v]) <$> HttpBehavior.headers this.
Proof.
  unfold HttpBehavior.Upload_request, http_NewRequest.
  destruct (HttpBehavior.httpPostTemplate this); [|discriminate].
  destruct (HttpBehavior.firstEventTemplate this); [|discriminate].
  destruct (HttpBehavior.subsequentEventTemplate this); [|discriminate].
  destruct (url_Parse_ok env _); [|discriminate]. intros [= <-].
  rewrite map_fold_Header_Set. cbn. by rewrite (right_id_L ∅ (∪)).
Qed.

Lemma Splunk_Upload_request_inv this request :
  SplunkBehavior.Upload_request env this name fp = Returned request →
  Method request = "POST" ∧ URL request = SplunkBehavior.dest this
  ∧ Header request = (fun v => [v]) <$> SplunkBehavior.headers this.
Proof.
  unfold SplunkBehavior.Upload_request, http_NewRequest.
  destruct (SplunkBehavior.httpPostTemplate this); [|discriminate].
  destruct (SplunkBehavior.firstEventTemplate this); [|discriminate].
  destruct (SplunkBehavior.subsequentEventTemplate this); [|discriminate].
  destruct (url_Parse_ok env _); [|discriminate]. intros [= <-].
  rewrite map_fold_Header_Set. cbn. by rewrite (right_id_L ∅ (∪)).
Qed.

(** An initialised behaviour with a post template builds its request
    whenever the destination is a URL [http.NewRequest] accepts. *)
Lemma Http_Upload_request_returns config this0 this err post :
  HttpBehavior.Initialize config this0 (HttpBehavior.dest this) = Returned (this, err) →
  HttpPostTemplate config = Some post →
  url_Parse_ok env (HttpBehavior.dest this) = true →
  ∃ request, HttpBehavior.Upload_request env this name fp = Returned request.
Proof.
  intros Hinit Hpost Hurl.
  apply Http_Initialize_templates in Hinit as (Hp & Hfirst & Hsub & _).
  unfold HttpBehavior.Upload_request, http_NewRequest.
  rewrite Hp, Hpost, Hfirst, Hsub, Hurl. by eexists.
Qed.

Lemma Splunk_Upload_request_returns config this0 this err post :
  SplunkBehavior.Initialize config this0 (SplunkBehavior.dest this) = Returned (this, err) →
  HttpPostTemplate config = Some post →
  url_Parse_ok env (SplunkBehavior.dest this) = true →
  ∃ request, SplunkBehavior.Upload_request env this name fp = Returned request.
Proof.
  intros Hinit Hpost Hurl.
  apply Splunk_Initialize_templates in Hinit as (Hp & Hfirst & Hsub & _).
  unfold SplunkBehavior.Upload_request, http_NewRequest.
  rewrite Hp, Hpost, Hfirst, Hsub, Hurl. by eexists.
Qed.

(** What [Upload] makes of the outcome of [client.Do]. *)
Lemma status_contract_transport err :
  status_contract (inl err) {| fileName := name; result := Some err; status := 0 |}.
Proof.
  unfold status_contract. cbn. split; [|split].
  - split; [discriminate|]. intros (resp & [=] & _).
  - intros e [= <-]. done.
  - intros resp [=].
Qed.

Lemma status_contract_response resp :
  status_contract (inr resp)
    (if negb (StatusCode resp =? 200) then
       {| fileName := name;
          result := Some (fmt_Errorf ("HTTP request failed: Error code " +:+
                      (Status resp +:+ newline +:+ (ioutil_ReadAll (Body resp)).1)));
          status := StatusCode resp |}
     else {| fileName := name; result := None; status := 200 |}).
Proof.
  unfold status_contract.
  destruct (Z.eqb_spec (StatusCode resp) 200) as [Hok|Hbad]; cbn.
  - split; [|split].
    + split; [eauto|done].
    + intros e [=].
    + intros r [= <-] Hr. done.
  - split; [|split].
    + split; [done|]. intros (r & [= <-] & Hr). done.
    + intros e [=].
    + intros r [= <-] _. split; [done|]. eexists. split; [done|]. discriminate.
Qed.


(** *** The status of an upload *)

Context (request : Request) (client : http_Client).

(** The second part of both [Upload] functions, after the request is
    built: the same steps over the result of [client.Do]. *)
Ltac post_steps Hreq Hclient :=
  rewrite Hreq; cbn [obind]; rewrite Hclient;
  destruct (http_Client_Do env client request) as [err|resp];
  [ eexists; split; [done|]; apply status_contract_transport
  | pose proof (status_contract_response resp) as Hc;
    destruct (ioutil_ReadAll (Body resp)) as [body readErr];
    destruct (negb (StatusCode resp =? 200)); eexists; (split; [done|exact Hc]) ].

(** C1. An upload that gets as far as the POST returns a status, for
    both behaviours: the status is 200 exactly when the POST was answered
    with 200; when [client.Do] returns an error the status is 0 and the
    result is that error; when the answer has another status code the
    status is that code and the result is an error with a non-empty
    text. *)
Theorem Upload_status :
  (∀ this,
     HttpBehavior.Upload_request env this name fp = Returned request →
     HttpBehavior.client this = Some client →
     ∃ st, HttpBehavior.Upload env this name fp = Returned st
           ∧ status_contract (http_Client_Do env client request) st)
  ∧ (∀ this,
     SplunkBehavior.Upload_request env this name fp = Returned request →
     SplunkBehavior.client this = Some client →
     ∃ st, SplunkBehavior.Upload env this name fp = Returned st
           ∧ status_contract (http_Client_Do env client request) st).
Proof.
  split; intros this Hreq Hclient.
  - unfold HttpBehavior.Upload. post_steps Hreq Hclient.
  - unfold SplunkBehavior.Upload. post_steps Hreq Hclient.
Qed.

(** C6, as the code has it. When the POST of an upload is answered with a
    status code other than 200, the error in the returned status reads
    [HTTP request failed: Error code ], then the status line, a newline,
    and the response body as read; for both behaviours. *)
Theorem failure_detail resp :
  http_Client_Do env client request = inr resp →
  StatusCode resp ≠ 200 →
  let detail :=
    "HTTP request failed: Error code " +:+ Status resp +:+ newline +:+ (Body resp).1 in
  (∀ this,
     HttpBehavior.Upload_request env this name fp = Returned request →
     HttpBehavior.client this = Some client →
     HttpBehavior.Upload env this name fp
     = Returned {| fileName := name; result := Some (errorString detail);
                   status := StatusCode resp |})
  ∧ (∀ this,
     SplunkBehavior.Upload_request env this name fp = Returned request →
     SplunkBehavior.client this = Some client →
     SplunkBehavior.Upload env this name fp
     = Returned {| fileName := name; result := Some (errorString detail);
                   status := StatusCode resp |}).
Proof.
  intros Hdo Hbad detail.
  assert (Hneq : negb (StatusCode resp =? 200) = true).
  { by destruct (Z.eqb_spec (StatusCode resp) 200). }
  split; intros this Hreq Hclient.
  - unfold HttpBehavior.Upload. rewrite Hreq. cbn [obind].
    rewrite Hclient, Hdo, Hneq. unfold ioutil_ReadAll. by destruct (Body resp).
  - unfold SplunkBehavior.Upload. rewrite Hreq. cbn [obind].
    rewrite Hclient, Hdo, Hneq. unfold ioutil_ReadAll. by destruct (Body resp).
Qed.

End Uploads.


Lemma Upload_status_witness :
  ∃ st, HttpBehavior.Upload (sampleEnv httpConf failAnswer) httpBehavior "bundle" threeRecords
        = Returned st
        ∧ status_contract failAnswer st.
Proof.
  refine (proj1 (Upload_status (sampleEnv httpConf failAnswer) "bundle" threeRecords
                   httpRequest httpClient) httpBehavior _ _).
  - vm_compute; reflexivity.
  - vm_compute; reflexivity.
Defined.

(** C6 as stated fails: the detail of a failed POST starts with a fixed
    text before the status line. *)
Lemma failure_detail_has_prefix :
  (returned (HttpBehavior.Upload (sampleEnv httpConf failAnswer) httpBehavior
               "bundle" threeRecords) ≫= result)
  = Some (errorString ("HTTP request failed: Error code 500 Internal Server Error"
                       +:+ newline +:+ "boom"))
  ∧ "HTTP request failed: Error code 500 Internal Server Error" +:+ newline +:+ "boom"
    ≠ "500 Internal Server Error" +:+ newline +:+ "boom".
Proof. split; [vm_compute; reflexivity|discriminate]. Qed.

Lemma failure_detail_witness :
  HttpBehavior.Upload (sampleEnv httpConf failAnswer) httpBehavior "bundle" threeRecords
  = Returned {| fileName := "bundle";
                result := Some (errorString
                  ("HTTP request failed: Error code 500 Internal Server Error"
                   +:+ newline +:+ "boom"));
                status := 500 |}.
Proof.
  refine (proj1 (failure_detail (sampleEnv httpConf failAnswer) "bundle" threeRecords
                   httpRequest httpClient
                   {| Status := "500 Internal Server Error"; StatusCode := 500;
                      Body := ("boom", None) |} eq_refl _) httpBehavior _ _).
  - discriminate.
  - vm_compute; reflexivity.
  - vm_compute; reflexivity.
Defined.

(* ===================================================================== *)
(** ** The body of an upload                                              *)
(* ===================================================================== *)

(** C2 as stated fails: between two records the body holds a newline, a
    comma and a space, not a comma alone. *)
Lemma three_records_body_has_newlines :
  RequestBody <$> returned (HttpBehavior.Upload_request (sampleEnv httpConf okAnswer)
                              httpBehavior "F" threeRecords)
  = Some (quoted "{'filename': 'F', 'service': 'carbonblack', 'alerts':[a" +:+ newline +:+
          ", b" +:+ newline +:+ ", c]}")
  ∧ quoted "{'filename': 'F', 'service': 'carbonblack', 'alerts':[a" +:+ newline +:+
    ", b" +:+ newline +:+ ", c]}"
    ≠ quoted "{'filename': 'F', 'service': 'carbonblack', 'alerts':[a,b,c]}".
Proof. split; [vm_compute; reflexivity|]. vm_compute. discriminate. Qed.

(** C2, as the code has it. With the default JSON post template, the
    body of the request an initialised HTTP behaviour builds for a bundle
    named [F] holding the records [a], [b], [c] is the envelope around
    [a], [b] and [c] in this order, with a newline, a comma and a space
    between one record and the next and nothing before [a] or after [c]. *)
Theorem three_records_body env config this0 dest this err F size a b c request :
  HttpPostTemplate config = defaultHttpPostTemplate →
  HttpBehavior.Initialize config this0 dest = Returned (this, err) →
  HttpBehavior.Upload_request env this F
    {| file_Stat := size; file_records := [a; b; c] |} = Returned request →
  RequestBody request
  = quoted "{'filename': '" +:+ F +:+
    quoted "', 'service': 'carbonblack', 'alerts':[" +:+
    a +:+ newline +:+ ", " +:+ b +:+ newline +:+ ", " +:+ c +:+ "]}".
Proof.
  intros Hpost Hinit Hreq.
  apply Http_Initialize_templates in Hinit as (Hp & Hfirst & Hsub & _).
  unfold HttpBehavior.Upload_request in Hreq.
  rewrite Hp, Hpost, defaultHttpPostTemplate_tree, Hfirst, Hsub in Hreq.
  unfold http_NewRequest in Hreq.
  destruct (url_Parse_ok env _); [|discriminate].
  injection Hreq as <-. rewrite map_fold_Header_Set. cbn.
  by rewrite !append_empty_r, !append_assoc.
Qed.

Lemma three_records_body_witness :
  RequestBody httpRequest
  = quoted "{'filename': '" +:+ "bundle" +:+
    quoted "', 'service': 'carbonblack', 'alerts':[" +:+
    "a" +:+ newline +:+ ", " +:+ "b" +:+ newline +:+ ", " +:+ "c" +:+ "]}".
Proof.
  refine (three_records_body (sampleEnv httpConf okAnswer) httpConfig Http_zero
            (OutputParameters httpConfig) httpBehavior None "bundle" (inr 6)
            "a" "b" "c" httpRequest _ _ _).
  - vm_compute; reflexivity.
  - vm_compute; reflexivity.
  - vm_compute; reflexivity.
Defined.

(* ===================================================================== *)
(** ** More on strings and numbers                                        *)
(* ===================================================================== *)

Lemma string_rev_acc_app (s acc : string) :
  string_rev_acc s acc = string_rev s +:+ acc.
Proof.
  unfold string_rev. revert acc.
  induction s as [|c s IH]; intros acc; [done|].
  cbn [string_rev_acc]. rewrite (IH (String c acc)), (IH (String c "")).
  by rewrite append_assoc.
Qed.

Lemma string_rev_cons (c : ascii) (s : string) :
  string_rev (String c s) = string_rev s +:+ String c "".
Proof. unfold string_rev at 1. cbn [string_rev_acc]. apply string_rev_acc_app. Qed.


Lemma free_of_app c s1 s2 : free_of c s1 → free_of c s2 → free_of c (s1 +:+ s2).
Proof.
  induction s1 as [|c' s1 IH]; [done|]. intros [Hne Hs1] Hs2.
  change (String c' s1 +:+ s2) with (String c' (s1 +:+ s2)). split; auto.
Qed.

Lemma free_of_rev c s : free_of c s → free_of c (string_rev s).
Proof.
  induction s as [|c' s IH]; [done|]. intros [Hne Hs].
  rewrite string_rev_cons. apply free_of_app; [auto|]. by split.
Qed.

Lemma split_on_nonempty sep s cur : split_on sep s cur ≠ [].
Proof.
  revert cur. induction s as [|c s IH]; intros cur; [done|].
  cbn [split_on]. by destruct (Ascii.eqb c sep).
Qed.

Lemma strings_Join_cons x l sep :
  l ≠ [] → strings_Join (x :: l) sep = x +:+ sep +:+ strings_Join l sep.
Proof. by destruct l. Qed.

Lemma split_on_Join sep s cur :
  strings_Join (split_on sep s cur) (String sep "") = string_rev cur +:+ s.
Proof.
  revert cur. induction s as [|c s IH]; intros cur.
  - cbn. by rewrite append_empty_r.
  - cbn [split_on]. destruct (Ascii.eqb_spec c sep) as [->|Hne].
    + rewrite strings_Join_cons by apply split_on_nonempty. by rewrite IH.
    + by rewrite IH, string_rev_cons, append_assoc.
Qed.

Lemma split_on_free sep s cur :
  free_of sep cur → Forall (free_of sep) (split_on sep s cur).
Proof.
  revert cur. induction s as [|c s IH]; intros cur Hcur.
  - constructor; [by apply free_of_rev|constructor].
  - cbn [split_on]. destruct (Ascii.eqb_spec c sep) as [->|Hne].
    + constructor; [by apply free_of_rev|]. by apply IH.
    + apply IH. by split.
Qed.

(** [strings.Split(s, ",")] followed by [strings.Join(_, ",")] gives [s]
    back; the split never yields an empty list, and no piece holds a
    comma. *)
Lemma Split_Join_round_trip (s : string) :
  strings_Join (strings_Split_comma s) "," = s
  ∧ strings_Split_comma s ≠ []
  ∧ Forall (free_of ",") (strings_Split_comma s).
Proof.
  unfold strings_Split_comma. split; [|split].
  - by rewrite split_on_Join.
  - apply split_on_nonempty.
  - by apply split_on_free.
Qed.


(** What [strconv.ParseInt] returns fits an [int64]. *)
Lemma strconv_ParseInt_range (s : string) (n : Z) :
  strconv_ParseInt s = Some n → int64_min ≤ n ≤ int64_max.
Proof.
  unfold strconv_ParseInt. destruct s as [|c rest]; [done|].
  destruct (if Ascii.eqb c "-" then _ else _) as [neg body].
  destruct body; [done|]. destruct (parse_digits _ 0) as [u|]; [|done].
  destruct (_ && _) eqn:Hrange; [|done]. intros [= <-].
  apply andb_true_iff in Hrange as [H1 H2]. lia.
Qed.

Lemma wrap64_range (z : Z) : int64_min ≤ wrap64 z ≤ int64_max.
Proof.
  unfold wrap64, int64_min, int64_max.
  pose proof (Z.mod_pos_bound (z + 2 ^ 63) (2 ^ 64)). lia.
Qed.

(* ===================================================================== *)
(** ** [ConfigurationError]                                               *)
(* ===================================================================== *)

Lemma strings_Join_snoc (l : list string) (x sep : string) :
  l ≠ [] → strings_Join (l ++ [x]) sep = strings_Join l sep +:+ sep +:+ x.
Proof.
  induction l as [|y l IH]; [done|]. intros _.
  destruct l as [|z l].
  - done.
  - change ((y :: z :: l) ++ [x]) with (y :: ((z :: l) ++ [x])).
    rewrite strings_Join_cons by done. rewrite IH by done.
    rewrite (strings_Join_cons y (z :: l)) by done. by rewrite !append_assoc.
Qed.

(** X1. [addErrorString] marks the error as not empty and puts the new
    message last; in the text of [Error()] a first message follows the
    heading, and every later one follows the text so far after a newline
    and a blank. *)
Theorem addErrorString_Error (e : ConfigurationError) (msg : string) :
  Empty (addErrorString e msg) = false
  ∧ last (Errors (addErrorString e msg)) = Some msg
  ∧ ConfigurationError_Error (addErrorString e msg)
    = if bool_decide (Errors e = [])
      then "Configuration errors:" +:+ newline +:+ " " +:+ msg
      else ConfigurationError_Error e +:+ newline +:+ " " +:+ msg.
Proof.
  split; [done|]. split; [apply last_snoc|].
  unfold ConfigurationError_Error, addErrorString. cbn [Errors].
  case_bool_decide as Hnil.
  - rewrite Hnil. reflexivity.
  - rewrite strings_Join_snoc by done.
    change (String "010" " ") with (newline +:+ " ").
    by rewrite !append_assoc.
Qed.

(* ===================================================================== *)
(** ** More on [ParseConfig]                                              *)
(* ===================================================================== *)

Lemma Empty_addErrorString_if cond errs msg :
  Empty (addErrorString_if cond errs msg) = Empty errs && negb cond.
Proof. destruct cond; cbn; [by rewrite andb_false_r|by rewrite andb_true_r]. Qed.

Lemma Empty_bool_setting_error errs val msg :
  Empty (bool_setting_error errs val msg) = true ↔ Empty errs = true ∧ parses_bool val.
Proof.
  unfold bool_setting_error, parses_bool. destruct val as [v|].
  - destruct (strconv_ParseBool v) as [b|] eqn:Hb.
    + split; [intros ->; split; [done|]; intros ? [= <-]; rewrite Hb; eauto|by intros [-> _]].
    + split; [done|]. intros [_ Hv]. destruct (Hv v eq_refl) as [b Hb']. congruence.
  - split; [by intros ->|by intros [-> _]].
Qed.

Lemma error_of_None errs : error_of errs = None ↔ Empty errs = true.
Proof. unfold error_of. by destruct (Empty errs). Qed.

Lemma length_zero_iff (s : string) : (String.length s =? 0)%nat = true ↔ s = "".
Proof. by destruct s. Qed.

Lemma switch_outType_default_iff (s : string) :
  switch_outType s = case_default
  ↔ s ∉ ["file"; "tcp"; "udp"; "s3"; "http"; "syslog"; "kafka"; "splunk"].
Proof.
  unfold switch_outType. rewrite !not_elem_of_cons.
  repeat match goal with
         | |- context [String.eqb s ?l] =>
             destruct (String.eqb_spec s l) as [->|?];
             [split; [intros H; vm_compute in H; discriminate|intuition congruence]|]
         end.
  split; [|done]. intros _. repeat split; try done. apply not_elem_of_nil.
Qed.

Lemma absent_false_iff {A} (o : option A) : absent o = false ↔ is_Some o.
Proof. destruct o; cbn; split; eauto; try done. Qed.

(** The four places before the boolean keys where [ParseConfig] may add
    an error, as conditions on the flags that guard them. *)
Lemma error_sites (a n c d l k : bool) :
  true && negb a && negb (n && negb c) && negb d && negb (l && k) = true
  ↔ a = false ∧ (n = true → c = true) ∧ d = false ∧ (l = true → k = false).
Proof. destruct a, n, c, d, l, k; cbn; intuition congruence. Qed.

Lemma incomplete_iff env (input : File) :
  ((String.length (default "cb" (Get input "bridge" "rabbit_mq_username")) =? 0)%nat
   || (String.length (default "" (Get input "bridge" "rabbit_mq_password")) =? 0)%nat = true
   → absent (parseCbConf env).2 = true)
  ↔ (credentials_incomplete input → (parseCbConf env).2 = None).
Proof.
  unfold credentials_incomplete. rewrite orb_true_iff, !length_zero_iff.
  destruct (parseCbConf env).2; cbn; [|done].
  split; intros Himp Hinc; by specialize (Himp Hinc).
Qed.

Lemma parameterKey_iff (input : File) (key : string) :
  ((0 <? String.length key)%nat = true → absent (Get input "bridge" key) = false)
  ↔ (key ≠ "" → is_Some (Get input "bridge" key)).
Proof.
  rewrite absent_false_iff. destruct key; cbn.
  - split; intros _ ?; done.
  - split; intros Himp _; by apply Himp.
Qed.

Lemma switch_outType_http_iff (s : string) : switch_outType s = case_http ↔ s = "http".
Proof.
  unfold switch_outType.
  repeat match goal with
         | |- context [String.eqb s ?l] =>
             destruct (String.eqb_spec s l) as [->|?];
             [split; intros H; first [done|vm_compute in H; discriminate]|]
         end.
  done.
Qed.

Lemma switch_outType_splunk_iff (s : string) : switch_outType s = case_splunk ↔ s = "splunk".
Proof.
  unfold switch_outType.
  repeat match goal with
         | |- context [String.eqb s ?l] =>
             destruct (String.eqb_spec s l) as [->|?];
             [split; intros H; first [done|vm_compute in H; discriminate]|]
         end.
  done.
Qed.

(** [parseCbConf] hands back credentials without an error only when both
    are there and not empty. *)
Lemma switch_outType_cases (s : string) :
  match switch_outType s with
  | case_file => s = "file"
  | case_tcp => s = "tcp"
  | case_udp => s = "udp"
  | case_s3 => s = "s3"
  | case_http => s = "http"
  | case_syslog => s = "syslog"
  | case_kafka => s = "kafka"
  | case_splunk => s = "splunk"
  | case_default =>
      s ∉ ["file"; "tcp"; "udp"; "s3"; "http"; "syslog"; "kafka"; "splunk"]
  end.
Proof.
  unfold switch_outType.
  repeat match goal with
  | |- context [String.eqb s ?l] => destruct (String.eqb_spec s l) as [?|?]; [done|]
  end.
  rewrite !elem_of_cons, elem_of_nil. tauto.
Qed.

Lemma parseCbConf_nil_error env :
  (parseCbConf env).2 = None →
  (parseCbConf env).1.1 ≠ "" ∧ (parseCbConf env).1.2 ≠ "".
Proof.
  unfold parseCbConf. destruct (ini_LoadFile env "/etc/cb/cb.conf") as [e|conf]; [done|].
  destruct (_ || _) eqn:Hempty; [done|]. intros _.
  apply orb_false_iff in Hempty as [Hu Hp]. cbn.
  split; intros Heq; apply length_zero_iff in Heq; congruence.
Qed.

(** The map built from the event types holds exactly those, each as
    [true]. *)
Lemma EventMap_fold (types : list string) (m : gmap string bool) (k : string) :
  foldl (fun m eventName => <[eventName := true]> m) m types !! k
  = if bool_decide (k ∈ types) then Some true else m !! k.
Proof.
  revert m. induction types as [|t types IH]; intros m.
  - cbn. case_bool_decide as Hin; [by apply elem_of_nil in Hin|done].
  - cbn [foldl]. rewrite IH. destruct (decide (k ∈ types)) as [Hin|Hnin].
    + rewrite !bool_decide_eq_true_2; [done| |done]. apply elem_of_cons. by right.
    + rewrite (bool_decide_eq_false_2 (k ∈ types)) by done.
      destruct (decide (k = t)) as [->|Hne].
      * rewrite bool_decide_eq_true_2 by apply list_elem_of_here.
        apply lookup_insert_eq.
      * rewrite bool_decide_eq_false_2; [by rewrite lookup_insert_ne|].
        intros [?|?]%elem_of_cons; done.
Qed.

Lemma parseEventTypes_types env (input : File) (c_EventTypes : list string) :
  (parseEventTypes env c_EventTypes input).1
  = c_EventTypes ++
    mjoin ((fun entry => keys_of_value env entry.2 (Get input "bridge" entry.1))
           <$> eventTypes).
Proof.
  unfold parseEventTypes. cbn [fst]. generalize eventTypes as table.
  intros table. revert c_EventTypes.
  induction table as [|[configKey eventList] table IH]; intros acc.
  - cbn. by rewrite app_nil_r.
  - cbn [foldl]. rewrite IH. cbn [fmap list_fmap mjoin list_join fst snd].
    unfold keys_of_value at 2. destruct (Get input "bridge" configKey) as [val|]; [|done].
    cbv zeta. destruct (String.eqb _ "all"); [by rewrite app_assoc|].
    destruct (String.eqb _ "0"); [done|by rewrite app_assoc].
Qed.


Section ParsedMore.

Context (env : Env) (fn : string) (input : File) (ot : string).
Context (cfg : Configuration) (err : option error).
Hypothesis Hload : ini_LoadFile env fn = inr input.
Hypothesis Hot : Get input "bridge" "output_type" = Some ot.
Hypothesis Hret : ParseConfig env fn = Returned (cfg, err).

Local Abbreviation outType := (normalize env ot).
Local Abbreviation parameterKey := (case_parameterKey (switch_outType (normalize env ot))).

(** As in the section above, keeping the equations of the three steps
    that can stop [ParseConfig]. *)
Ltac returned_steps H tpl Htpl tlsc Htls :=
  unfold ParseConfig in H; rewrite Hload, Hot in H; cbv zeta in H;
  fold (normalize env ot) in H;
  apply obind_Returned in H as (tpl & Htpl & H);
  let redis := fresh "redis" in
  apply obind_Returned in H as (redis & _ & H);
  apply obind_Returned in H as (tlsc & Htls & H);
  apply Returned_pair_inv in H.

(** X2. Whenever [ParseConfig] returns, the error it returns is [nil]
    exactly when the file has [rabbit_mq_password]; the credentials are
    complete or [/etc/cb/cb.conf] supplies them; the output type is a
    known one; the key naming the destination, if the type has one, is
    there; and each of [use_raw_sensor_exchange], [tls_verify],
    [insecure_tls], [upload_empty_files], [api_verify_ssl] is absent or a
    boolean. Nothing else in the file can make a returned error non-nil;
    a file can still make [ParseConfig] panic or exit. *)
Theorem ParseConfig_nil_error_iff :
  err = None ↔
    is_Some (Get input "bridge" "rabbit_mq_password")
    ∧ (credentials_incomplete input → (parseCbConf env).2 = None)
    ∧ switch_outType outType ≠ case_default
    ∧ (parameterKey ≠ "" → is_Some (Get input "bridge" parameterKey))
    ∧ parses_bool (Get input "bridge" "use_raw_sensor_exchange")
    ∧ parses_bool (Get input outType "tls_verify")
    ∧ parses_bool (Get input outType "insecure_tls")
    ∧ parses_bool (Get input outType "upload_empty_files")
    ∧ parses_bool (Get input "bridge" "api_verify_ssl").
Proof.
  pose proof Hret as H. returned_steps H tpl Htpl tlsc Htls. destruct H as [_ <-].
  rewrite error_of_None. rewrite !Empty_bool_setting_error, !Empty_addErrorString_if.
  cbn [Empty]. rewrite error_sites.
  rewrite absent_false_iff, incomplete_iff, parameterKey_iff.
  assert (Hcase : match switch_outType outType with case_default => true | _ => false end = false
                  ↔ switch_outType outType ≠ case_default).
  { by destruct (switch_outType outType). }
  rewrite Hcase. tauto.
Qed.

(** The two conditions on the credentials among those a [nil] error
    stands for. *)
Lemma nil_error_credentials :
  err = None →
  is_Some (Get input "bridge" "rabbit_mq_password")
  ∧ (credentials_incomplete input → (parseCbConf env).2 = None).
Proof.
  pose proof Hret as H. returned_steps H tpl Htpl tlsc Htls. destruct H as [_ <-].
  rewrite error_of_None. rewrite !Empty_bool_setting_error, !Empty_addErrorString_if.
  cbn [Empty]. rewrite error_sites.
  rewrite absent_false_iff, incomplete_iff. tauto.
Qed.

(** X3. A configuration returned with a [nil] error has a user name and a
    password for the message bus, neither of them empty: they are the
    ones of the file when both are there and not empty, and the ones of
    [/etc/cb/cb.conf] otherwise. *)
Theorem credentials_never_empty :
  err = None →
  AMQPUsername cfg ≠ "" ∧ AMQPPassword cfg ≠ ""
  ∧ (¬ credentials_incomplete input →
     AMQPUsername cfg = default "cb" (Get input "bridge" "rabbit_mq_username")
     ∧ Some (AMQPPassword cfg) = Get input "bridge" "rabbit_mq_password")
  ∧ (credentials_incomplete input →
     AMQPUsername cfg = (parseCbConf env).1.1 ∧ AMQPPassword cfg = (parseCbConf env).1.2).
Proof.
  intros Hnil. destruct (nil_error_credentials Hnil) as [[p Hp] Hcb].
  pose proof Hret as H. returned_steps H tpl Htpl tlsc Htls. destruct H as [<- _].
  cbn [AMQPUsername AMQPPassword]. unfold credentials_incomplete in *.
  rewrite Hp in *. change (default "" (Some p)) with p in *.
  set (u := default "cb" (Get input "bridge" "rabbit_mq_username")) in *.
  destruct (_ || _) eqn:Hneed.
  - apply orb_true_iff in Hneed. rewrite !length_zero_iff in Hneed.
    destruct (parseCbConf_nil_error env (Hcb Hneed)) as [? ?]. tauto.
  - apply orb_false_iff in Hneed as [Hu Hpw].
    assert (u ≠ "") by (intros Heq; apply length_zero_iff in Heq; congruence).
    assert (p ≠ "") by (intros Heq; apply length_zero_iff in Heq; congruence).
    repeat split; try done; exfalso; tauto.
Qed.

(** X4. With an output type that is none of the eight the switch knows,
    [ParseConfig], when it returns, reports [Unknown output type: ] with
    the type as normalised; [OutputType] stays [FileOutputType], no
    destination is read and no post template or content type is set. *)
Theorem unknown_output_type :
  outType ∉ ["file"; "tcp"; "udp"; "s3"; "http"; "syslog"; "kafka"; "splunk"] →
  (∃ errs, err = Some (errConfiguration errs)
           ∧ ("Unknown output type: " +:+ outType) ∈ Errors errs)
  ∧ OutputType cfg = FileOutputType
  ∧ OutputParameters cfg = ""
  ∧ HttpPostTemplate cfg = None
  ∧ HttpContentType cfg = None.
Proof.
  intros Hcase%switch_outType_default_iff.
  pose proof Hret as H. returned_steps H tpl Htpl tlsc Htls. destruct H as [<- <-].
  rewrite Hcase in *. cbn [OutputType OutputParameters HttpPostTemplate HttpContentType].
  injection Htpl as <-. split; [|done].
  match goal with |- ∃ errs, error_of ?e = _ ∧ ?msg ∈ _ =>
    assert (Herr : has_error msg e)
  end.
  { do 5 apply has_error_bool_setting_error. apply has_error_addErrorString_if.
    apply has_error_added. }
  eexists. split; [by eapply error_of_has_error|]. apply Herr.
Qed.


(** X6. [CommaSeparateEvents] is on exactly when the output format is
    JSON, and the format is LEEF exactly when [output_format], trimmed and
    in lower case, reads [leef]; any other value, or none, gives JSON. *)
Theorem OutputFormat_and_commas :
  (CommaSeparateEvents cfg = true ↔ OutputFormat cfg = JSONOutputFormat)
  ∧ (OutputFormat cfg = LEEFOutputFormat
     ↔ ∃ val, Get input "bridge" "output_format" = Some val ∧ normalize env val = "leef")
  ∧ (OutputFormat cfg = LEEFOutputFormat ∨ OutputFormat cfg = JSONOutputFormat).
Proof.
  pose proof Hret as H. returned_steps H tpl Htpl tlsc Htls. destruct H as [<- _].
  cbn [CommaSeparateEvents OutputFormat]. fold (normalize env).
  destruct (Get input "bridge" "output_format") as [val|].
  - fold (normalize env val). destruct (String.eqb_spec (normalize env val) "leef") as [Heq|Hne].
    + split; [done|]. split; [|by left]. split; [eauto|done].
    + split; [done|]. split; [|by right]. split; [done|]. intros (v & [= <-] & ?). done.
  - split; [done|]. split; [|by right]. split; [done|]. by intros (v & ? & ?).
Qed.

(** X7. The HTTP-specific fields go with the output type: the post
    template and the content type are set exactly for the http and the
    splunk output, the authorization token only for http, the Splunk
    token only for splunk, so that a configuration never holds both
    tokens. *)
Theorem http_fields_follow_output_type :
  (is_Some (HttpPostTemplate cfg)
   ↔ normalize env ot = "http" ∨ normalize env ot = "splunk")
  ∧ (is_Some (HttpContentType cfg)
     ↔ normalize env ot = "http" ∨ normalize env ot = "splunk")
  ∧ (is_Some (HttpAuthorizationToken cfg) → normalize env ot = "http")
  ∧ (is_Some (SplunkToken cfg) → normalize env ot = "splunk")
  ∧ (HttpAuthorizationToken cfg = None ∨ SplunkToken cfg = None).
Proof.
  pose proof Hret as H. returned_steps H tpl Htpl tlsc Htls. destruct H as [<- _].
  cbn [HttpPostTemplate HttpContentType HttpAuthorizationToken SplunkToken].
  rewrite <- switch_outType_http_iff, <- switch_outType_splunk_iff.
  destruct (switch_outType outType);
    try (injection Htpl as <-;
         repeat split; try (by intros [? ?]); try (by intros [?|?]); by auto).
  - apply obind_Returned in Htpl as (t & _ & [= <-]).
    repeat split; eauto; try (by intros [? ?]).
  - apply obind_Returned in Htpl as (t & _ & [= <-]).
    repeat split; eauto; try (by intros [? ?]).
Qed.

(** X8. A routing key is among [EventTypes] exactly when one of the
    seven [events_...] keys of [bridge] brings it in: as a key of that
    entry of the table when the value, in lower case, is [all], as a piece
    of the value between commas when the value is neither [all] nor [0].
    [EventMap] holds exactly these routing keys, each as [true]. *)
Theorem EventTypes_and_EventMap (routingKey : string) :
  (routingKey ∈ EventTypes cfg
   ↔ ∃ entry, entry ∈ eventTypes
              ∧ routingKey ∈ keys_of_value env entry.2 (Get input "bridge" entry.1))
  ∧ (EventMap cfg !! routingKey = Some true ↔ routingKey ∈ EventTypes cfg)
  ∧ EventMap cfg !! routingKey ≠ Some false.
Proof.
  pose proof Hret as H. returned_steps H tpl Htpl tlsc Htls. destruct H as [<- _].
  cbn [EventTypes EventMap]. split; [|split].
  - rewrite parseEventTypes_types. cbn [app]. rewrite list_elem_of_join. split.
    + intros (l & Hin & (entry & -> & Hentry)%list_elem_of_fmap). eauto.
    + intros (entry & Hentry & Hin). eexists. split; [exact Hin|].
      apply list_elem_of_fmap. eauto.
  - unfold parseEventTypes. cbn [fst snd]. rewrite EventMap_fold.
    case_bool_decide; [done|]. rewrite lookup_empty. split; [done|]. done.
  - unfold parseEventTypes. cbn [snd]. rewrite EventMap_fold.
    case_bool_decide; [done|]. by rewrite lookup_empty.
Qed.

(** X9. With [monitored_logs = val] in [bridge], [MonitoredLogs] is the
    list of the pieces of [val] between commas: joining them with commas
    gives [val] back, no piece holds a comma, and the list is never
    empty (an empty [val] gives one empty name). Without the key the
    list is empty. *)
Theorem MonitoredLogs_round_trip :
  (∀ val, Get input "bridge" "monitored_logs" = Some val →
          strings_Join (MonitoredLogs cfg) "," = val
          ∧ MonitoredLogs cfg ≠ []
          ∧ Forall (free_of ",") (MonitoredLogs cfg))
  ∧ (Get input "bridge" "monitored_logs" = None → MonitoredLogs cfg = []).
Proof.
  pose proof Hret as H. returned_steps H tpl Htpl tlsc Htls. destruct H as [<- _].
  cbn [MonitoredLogs]. unfold parseMonitoredLogs. split.
  - intros val ->. cbn [app]. apply Split_Join_round_trip.
  - by intros ->.
Qed.

(** X10. With [bundle_size_max = val] in the section of the output type:
    if [val] parses as the integer [n], [BundleSizeMax] is [n] itself,
    whatever its sign, and lies within [int64]; if it does not parse,
    [BundleSizeMax] is the default of 10 MiB. *)
Theorem bundle_size_max_value (val : string) :
  Get input outType "bundle_size_max" = Some val →
  (∀ n, strconv_ParseInt val = Some n →
        BundleSizeMax cfg = n ∧ int64_min ≤ n ≤ int64_max)
  ∧ (strconv_ParseInt val = None → BundleSizeMax cfg = 10 * 1024 * 1024).
Proof.
  intros Hval.
  pose proof Hret as H. returned_steps H tpl Htpl tlsc Htls. destruct H as [<- _].
  cbn [BundleSizeMax]. rewrite Hval. unfold int64_setting. split.
  - intros n Hn. rewrite Hn. split; [done|]. by eapply strconv_ParseInt_range.
  - by intros ->.
Qed.


(** X12. The defaults of the [bridge] section: without [server_name],
    [debug_store] and [http_server_port] the server name is [CB], the
    debug store is the directory under [/var/log] (never [/tmp]) and the
    port is 33706; and with a non-empty [rabbit_mq_password] [p] and none
    of [rabbit_mq_username], [cb_server_hostname], [rabbit_mq_port], the
    bus address is [amqp://cb:p@localhost:5004]. *)
Theorem bridge_defaults (p : string) :
  Get input "bridge" "server_name" = None →
  Get input "bridge" "debug_store" = None →
  Get input "bridge" "http_server_port" = None →
  Get input "bridge" "rabbit_mq_username" = None →
  Get input "bridge" "cb_server_hostname" = None →
  Get input "bridge" "rabbit_mq_port" = None →
  Get input "bridge" "rabbit_mq_password" = Some p →
  p ≠ "" →
  ServerName cfg = "CB"
  ∧ DebugStore cfg = "/var/log/cb/integrations/cb-event-forwarder"
  ∧ HTTPServerPort cfg = 33706
  ∧ AMQPURL cfg = "amqp://cb:" +:+ p +:+ "@localhost:5004".
Proof.
  intros Hname Hstore Hport Huser Hhost Hbus Hpw Hp.
  pose proof Hret as H. returned_steps H tpl Htpl tlsc Htls. destruct H as [<- _].
  unfold AMQPURL.
  cbn [ServerName DebugStore HTTPServerPort AMQPUsername AMQPPassword AMQPHostname AMQPPort].
  rewrite Hname, Hstore, Hport, Huser, Hhost, Hbus, Hpw.
  assert (Hlen : (String.length p =? 0)%nat = false).
  { apply not_true_is_false. by intros ?%length_zero_iff. }
  cbn [default from_option id int_setting]. rewrite Hlen.
  cbn [String.length Nat.eqb orb].
  split; [done|]. split; [done|]. split; [done|].
  change (pretty 5004) with "5004". reflexivity.
Qed.

(** X13. A configuration parsed for the http output sets up the HTTP
    behaviour without a panic and without an error, for the destination
    [OutputParameters]; the behaviour's key is that destination, and every
    upload to a destination [http.NewRequest] accepts returns a status.
    The same holds for the splunk output and the Splunk behaviour. *)
Theorem parsed_configuration_initialises :
  (outType = "http" →
   ∀ this0, ∃ this,
     HttpBehavior.Initialize cfg this0 (OutputParameters cfg) = Returned (this, None)
     ∧ HttpBehavior.Key this = OutputParameters cfg
     ∧ ∀ host name fp, url_Parse_ok host (OutputParameters cfg) = true →
         ∃ st, HttpBehavior.Upload host this name fp = Returned st)
  ∧ (outType = "splunk" →
   ∀ this0, ∃ this,
     SplunkBehavior.Initialize cfg this0 (OutputParameters cfg) = Returned (this, None)
     ∧ SplunkBehavior.Key this = OutputParameters cfg
     ∧ ∀ host name fp, url_Parse_ok host (OutputParameters cfg) = true →
         ∃ st, SplunkBehavior.Upload host this name fp = Returned st).
Proof.
  pose proof Hret as H. returned_steps H tpl Htpl tlsc Htls. destruct H as [Hcfg _].
  assert (Hct : switch_outType outType = case_http ∨ switch_outType outType = case_splunk →
                ∃ ct post, HttpContentType cfg = Some ct ∧ HttpPostTemplate cfg = Some post).
  { rewrite <- Hcfg. cbn [HttpContentType HttpPostTemplate].
    intros [Hcase|Hcase]; rewrite Hcase in *;
      apply obind_Returned in Htpl as (t & _ & [= <-]); eauto. }
  clear Hcfg Htpl Htls. split.
  - intros Hcase%switch_outType_http_iff this0.
    destruct Hct as (ct & post & Hct & Hpost); [by left|].
    destruct (Http_Initialize_returns cfg this0 (OutputParameters cfg) ct Hct)
      as [this Hinit].
    exists this. split; [done|].
    pose proof (Http_Initialize_headers _ _ _ _ _ Hinit) as (_ & Hdest & _).
    pose proof (Http_Initialize_templates _ _ _ _ _ Hinit) as (Hp & Hfirst & Hsub & Hclient).
    split; [done|]. intros host name fp Hurl.
    unfold HttpBehavior.Upload, HttpBehavior.Upload_request, http_NewRequest.
    rewrite Hp, Hpost, Hfirst, Hsub, Hdest, Hurl. cbn [obind]. rewrite Hclient.
    destruct (http_Client_Do host _ _) as [e|resp]; [by eexists|].
    destruct (ioutil_ReadAll (Body resp)). destruct (negb _); by eexists.
  - intros Hcase%switch_outType_splunk_iff this0.
    destruct Hct as (ct & post & Hct & Hpost); [by right|].
    destruct (Splunk_Initialize_returns cfg this0 (OutputParameters cfg) ct Hct)
      as [this Hinit].
    exists this. split; [done|].
    pose proof (Splunk_Initialize_headers _ _ _ _ _ Hinit) as (_ & Hdest & _).
    pose proof (Splunk_Initialize_templates _ _ _ _ _ Hinit) as (Hp & Hfirst & Hsub & Hclient).
    split; [done|]. intros host name fp Hurl.
    unfold SplunkBehavior.Upload, SplunkBehavior.Upload_request, http_NewRequest.
    rewrite Hp, Hpost, Hfirst, Hsub, Hdest, Hurl. cbn [obind]. rewrite Hclient.
    destruct (http_Client_Do host _ _) as [e|resp]; [by eexists|].
    destruct (ioutil_ReadAll (Body resp)). destruct (negb _); by eexists.
Qed.

(** The output type of a configuration returned with a [nil] error is
    one the switch knows. *)
Lemma nil_error_known_type : err = None → switch_outType outType ≠ case_default.
Proof.
  pose proof Hret as H. returned_steps H tpl Htpl tlsc Htls. destruct H as [_ <-].
  intros Hnil Hcase. rewrite Hcase in Hnil.
  match type of Hnil with error_of ?e = None =>
    assert (Herr : has_error ("Unknown output type: " +:+ outType) e)
  end.
  { do 5 apply has_error_bool_setting_error. apply has_error_addErrorString_if.
    apply has_error_added. }
  apply error_of_has_error in Herr. congruence.
Qed.

(** X14. In a configuration returned with a [nil] error, [OutputType]
    tells the eight output types apart: it is the constant of a type
    exactly when [output_type], trimmed and in lower case, is the name of
    that type, and it is one of the eight. *)
Theorem OutputType_of_output_type :
  err = None →
  outType ∈ ["file"; "tcp"; "udp"; "s3"; "http"; "syslog"; "kafka"; "splunk"]
  ∧ (OutputType cfg = FileOutputType ↔ outType = "file")
  ∧ (OutputType cfg = TCPOutputType ↔ outType = "tcp")
  ∧ (OutputType cfg = UDPOutputType ↔ outType = "udp")
  ∧ (OutputType cfg = S3OutputType ↔ outType = "s3")
  ∧ (OutputType cfg = HttpOutputType ↔ outType = "http")
  ∧ (OutputType cfg = SyslogOutputType ↔ outType = "syslog")
  ∧ (OutputType cfg = KafkaOutputType ↔ outType = "kafka")
  ∧ (OutputType cfg = SplunkOutputType ↔ outType = "splunk").
Proof.
  intros Hknown%nil_error_known_type.
  pose proof Hret as H. returned_steps H tpl Htpl tlsc Htls. destruct H as [<- _].
  cbn [OutputType]. clear Htpl Htls.
  pose proof (switch_outType_cases outType) as Hcases.
  destruct (switch_outType outType); [..|done]; rewrite Hcases;
    (split; [by repeat constructor|]);
    unfold case_OutputType, FileOutputType, TCPOutputType, UDPOutputType,
      S3OutputType, HttpOutputType, SyslogOutputType, KafkaOutputType,
      SplunkOutputType;
    repeat split; intros Heq; first [reflexivity|discriminate Heq].
Qed.

(** X15. The S3 settings are read for the s3 output only. There,
    [S3CompressData] is on without [compress_data] in [s3] and with a
    value that parses to true, and off with any other value, one that is
    no boolean included; for every other output it is off and no S3
    setting is kept. *)
Theorem S3_settings :
  (outType = "s3" →
   (S3CompressData cfg = true
    ↔ Get input "s3" "compress_data" = None
      ∨ ∃ v, Get input "s3" "compress_data" = Some v ∧ strconv_ParseBool v = Some true)
   ∧ S3ACLPolicy cfg = Get input "s3" "acl_policy"
   ∧ S3ObjectPrefix cfg = Get input "s3" "object_prefix")
  ∧ (outType ≠ "s3" →
     S3CompressData cfg = false ∧ S3VerboseKey cfg = false
     ∧ S3CredentialProfileName cfg = None ∧ S3ACLPolicy cfg = None
     ∧ S3ServerSideEncryption cfg = None ∧ S3ObjectPrefix cfg = None).
Proof.
  pose proof Hret as H. returned_steps H tpl Htpl tlsc Htls. destruct H as [<- _].
  cbn [S3CompressData S3VerboseKey S3CredentialProfileName S3ACLPolicy
       S3ServerSideEncryption S3ObjectPrefix]. clear Htpl Htls.
  pose proof (switch_outType_cases outType) as Hcases.
  destruct (switch_outType outType);
    try (split;
         [intros Hs3; rewrite Hs3 in Hcases;
          first [discriminate Hcases|exfalso; apply Hcases; by repeat constructor]
         |done]).
  split; [intros _|done]. split; [|done].
  destruct (Get input "s3" "compress_data") as [v|].
  - destruct (strconv_ParseBool v) as [[]|] eqn:Hv; cbn;
      (split; [try done; eauto|try done; intros [?|(v' & [= <-] & Hv')]; congruence]).
  - split; [by left|done].
Qed.

(** X16. Auditing is on only when [enabled] in [audit] holds a boolean
    that is true, and then the Redis host of the configuration is the
    [redis_host] of the file; with auditing off the host is empty and the
    database number and the pipeline size are zero, whatever the file
    says. *)
Theorem audit_settings :
  (AuditingEnabled cfg = true
   ↔ ∃ v, Get input "audit" "enabled" = Some v ∧ strconv_ParseBool v = Some true)
  ∧ (AuditingEnabled cfg = true →
     Get input "audit" "redis_host" = Some (AuditRedisHost cfg))
  ∧ (AuditingEnabled cfg = false →
     AuditRedisHost cfg = "" ∧ AuditRedisDatabaseNumber cfg = 0
     ∧ AuditPipelineSize cfg = 0).
Proof.
  pose proof Hret as H.
  unfold ParseConfig in H; rewrite Hload, Hot in H; cbv zeta in H.
  fold (normalize env ot) in H.
  apply obind_Returned in H as (tpl & _ & H).
  apply obind_Returned in H as (redis & Hredis & H).
  apply obind_Returned in H as (tlsc & _ & H).
  apply Returned_pair_inv in H as [Hcfg _].
  apply (f_equal (fun c => (AuditingEnabled c, AuditRedisHost c,
                            AuditRedisDatabaseNumber c, AuditPipelineSize c))) in Hcfg.
  cbn [AuditingEnabled AuditRedisHost AuditRedisDatabaseNumber AuditPipelineSize] in Hcfg.
  injection Hcfg as <- <- <- <-. clear Hret Hload Hot.
  unfold bool_setting in *.
  destruct (Get input "audit" "enabled") as [v|].
  - destruct (strconv_ParseBool v) as [[]|] eqn:Hv; cbn in *.
    + split; [split; [eauto|done]|]. split; [|done]. intros _.
      destruct (Get input "audit" "redis_host"); [|done]. by injection Hredis as ->.
    + injection Hredis as <-.
      split; [split; [done|intros (v' & [= <-] & Hv'); congruence]|done].
    + injection Hredis as <-.
      split; [split; [done|intros (v' & [= <-] & Hv'); congruence]|done].
  - injection Hredis as <-. split; [split; [done|by intros (v & ? & _)]|done].
Qed.

End ParsedMore.

(** *** The theorems above on the samples *)

(** The http sample has all a [nil] error stands for. *)
Lemma ParseConfig_nil_error_iff_witness :
  is_Some (Get httpConf "bridge" "rabbit_mq_password")
  ∧ switch_outType "http" ≠ case_default
  ∧ parses_bool (Get httpConf "http" "tls_verify").
Proof.
  refine (let H := proj1 (ParseConfig_nil_error_iff
                            (sampleEnv httpConf okAnswer) "forwarder.conf" httpConf "http"
                            httpConfig None eq_refl eq_refl _) eq_refl in
          conj (proj1 H)
            (conj (proj1 (proj2 (proj2 H)))
               (proj1 (proj2 (proj2 (proj2 (proj2 (proj2 H)))))))).
  vm_compute; reflexivity.
Defined.

Lemma credentials_never_empty_witness :
  AMQPUsername httpConfig ≠ "" ∧ AMQPPassword httpConfig ≠ "".
Proof.
  refine (let H := credentials_never_empty
                     (sampleEnv httpConf okAnswer) "forwarder.conf" httpConf "http"
                     httpConfig None eq_refl eq_refl _ eq_refl in
          conj (proj1 H) (proj1 (proj2 H))).
  vm_compute; reflexivity.
Defined.

Lemma unknown_output_type_witness :
  (∃ errs, Some (errConfiguration unknownErrors) = Some (errConfiguration errs)
           ∧ "Unknown output type: pigeon" ∈ Errors errs)
  ∧ OutputType unknownConfig = FileOutputType
  ∧ OutputParameters unknownConfig = ""
  ∧ HttpPostTemplate unknownConfig = None
  ∧ HttpContentType unknownConfig = None.
Proof.
  refine (unknown_output_type
            (sampleEnv unknownConf okAnswer) "forwarder.conf" unknownConf "pigeon"
            unknownConfig (Some (errConfiguration unknownErrors)) eq_refl eq_refl _ _).
  - vm_compute; reflexivity.
  - apply switch_outType_default_iff. vm_compute; reflexivity.
Defined.


Lemma OutputFormat_and_commas_witness :
  OutputFormat s3Config = LEEFOutputFormat
  ∧ (CommaSeparateEvents s3Config = true ↔ OutputFormat s3Config = JSONOutputFormat).
Proof.
  refine (let H := OutputFormat_and_commas
                     (sampleEnv s3Conf okAnswer) "forwarder.conf" s3Conf " S3 "
                     s3Config None eq_refl eq_refl _ in
          conj (proj2 (proj1 (proj2 H)) (ex_intro _ " LEEF" (conj eq_refl eq_refl)))
            (proj1 H)).
  vm_compute; reflexivity.
Defined.

Lemma http_fields_follow_output_type_witness :
  Get ifTemplateConf "splunk" "http_post_template" = Some ifTemplate
  ∧ is_Some (HttpPostTemplate ifTemplateConfig)
  ∧ is_Some (HttpContentType ifTemplateConfig)
  ∧ HttpAuthorizationToken ifTemplateConfig = None.
Proof.
  split; [reflexivity|].
  refine (let H := http_fields_follow_output_type
                     (sampleEnv ifTemplateConf okAnswer) "forwarder.conf" ifTemplateConf
                     "splunk" ifTemplateConfig None eq_refl eq_refl _ in
          conj (proj2 (proj1 H) (or_intror eq_refl))
            (conj (proj2 (proj1 (proj2 H)) (or_intror eq_refl)) eq_refl)).
  vm_compute; reflexivity.
Defined.

(** [events_feed] of the s3 sample brings in the routing keys it lists. *)
Lemma EventTypes_and_EventMap_witness :
  "feed.query.hit.#" ∈ EventTypes s3Config
  ∧ EventMap s3Config !! "feed.query.hit.#" = Some true.
Proof.
  assert (Hret : ParseConfig (sampleEnv s3Conf okAnswer) "forwarder.conf"
                 = Returned (s3Config, None)) by (vm_compute; reflexivity).
  destruct (EventTypes_and_EventMap
              (sampleEnv s3Conf okAnswer) "forwarder.conf" s3Conf " S3 "
              s3Config None eq_refl eq_refl Hret "feed.query.hit.#") as (Hin & Hmap & _).
  assert (Hmem : "feed.query.hit.#" ∈ EventTypes s3Config).
  { apply Hin. exists ("events_feed", ["feed.#"]).
    split; vm_compute; by repeat constructor. }
  split; [exact Hmem|]. by apply Hmap.
Defined.

Lemma MonitoredLogs_round_trip_witness :
  strings_Join (MonitoredLogs s3Config) "," = "a.log,b.log"
  ∧ MonitoredLogs s3Config ≠ []
  ∧ Forall (free_of ",") (MonitoredLogs s3Config).
Proof.
  refine (proj1 (MonitoredLogs_round_trip
                   (sampleEnv s3Conf okAnswer) "forwarder.conf" s3Conf " S3 "
                   s3Config None eq_refl eq_refl _) "a.log,b.log" eq_refl).
  vm_compute; reflexivity.
Defined.

Lemma bundle_size_max_value_witness :
  BundleSizeMax s3Config = 2048 ∧ int64_min ≤ 2048 ≤ int64_max.
Proof.
  refine (proj1 (bundle_size_max_value
                   (sampleEnv s3Conf okAnswer) "forwarder.conf" s3Conf " S3 "
                   s3Config None eq_refl eq_refl _ "2048" eq_refl) 2048 eq_refl).
  vm_compute; reflexivity.
Defined.


Lemma bridge_defaults_witness :
  ServerName httpConfig = "CB"
  ∧ DebugStore httpConfig = "/var/log/cb/integrations/cb-event-forwarder"
  ∧ HTTPServerPort httpConfig = 33706
  ∧ AMQPURL httpConfig = "amqp://cb:" +:+ "secret" +:+ "@localhost:5004".
Proof.
  refine (bridge_defaults
            (sampleEnv httpConf okAnswer) "forwarder.conf" httpConf "http"
            httpConfig None eq_refl eq_refl _ "secret"
            eq_refl eq_refl eq_refl eq_refl eq_refl eq_refl eq_refl _).
  - vm_compute; reflexivity.
  - discriminate.
Defined.

Lemma parsed_configuration_initialises_witness :
  Get ifTemplateConf "splunk" "http_post_template" = Some ifTemplate
  ∧ ∃ this,
      SplunkBehavior.Initialize ifTemplateConfig Splunk_zero
        (OutputParameters ifTemplateConfig)
      = Returned (this, None)
      ∧ SplunkBehavior.Key this = OutputParameters ifTemplateConfig
      ∧ ∀ host name fp, url_Parse_ok host (OutputParameters ifTemplateConfig) = true →
          ∃ st, SplunkBehavior.Upload host this name fp = Returned st.
Proof.
  split; [reflexivity|].
  refine (proj2 (parsed_configuration_initialises
                   (sampleEnv ifTemplateConf okAnswer) "forwarder.conf" ifTemplateConf
                   "splunk" ifTemplateConfig None eq_refl eq_refl _) eq_refl Splunk_zero).
  vm_compute; reflexivity.
Defined.

Lemma OutputType_of_output_type_witness :
  OutputType s3Config = S3OutputType ↔ "s3" = "s3".
Proof.
  refine (proj1 (proj2 (proj2 (proj2 (proj2
            (OutputType_of_output_type
               (sampleEnv s3Conf okAnswer) "forwarder.conf" s3Conf " S3 "
               s3Config None eq_refl eq_refl _ eq_refl)))))).
  vm_compute; reflexivity.
Defined.

(** [compress_data = maybe] leaves the s3 sample without compression. *)
Lemma S3_settings_witness :
  Get s3Conf "s3" "compress_data" = Some "maybe"
  ∧ (S3CompressData s3Config = true
     ↔ Get s3Conf "s3" "compress_data" = None
       ∨ ∃ v, Get s3Conf "s3" "compress_data" = Some v ∧ strconv_ParseBool v = Some true)
  ∧ S3ACLPolicy s3Config = Get s3Conf "s3" "acl_policy"
  ∧ S3ObjectPrefix s3Config = Get s3Conf "s3" "object_prefix".
Proof.
  split; [reflexivity|].
  refine (proj1 (S3_settings
                   (sampleEnv s3Conf okAnswer) "forwarder.conf" s3Conf " S3 "
                   s3Config None eq_refl eq_refl _) eq_refl).
  vm_compute; reflexivity.
Defined.

Lemma audit_settings_witness :
  AuditingEnabled s3Config = true
  ∧ Get s3Conf "audit" "redis_host" = Some (AuditRedisHost s3Config).
Proof.
  refine (let H := audit_settings
                     (sampleEnv s3Conf okAnswer) "forwarder.conf" s3Conf " S3 "
                     s3Config None eq_refl eq_refl _ in
          let Hon := proj2 (proj1 H) (ex_intro _ "true" (conj eq_refl eq_refl)) in
          conj Hon (proj1 (proj2 H) Hon)).
  vm_compute; reflexivity.
Defined.

(** X17. The two early returns of [ParseConfig]: when the file cannot be
    loaded, the zero configuration and the loader's own error; when the
    file names no output type, a [ConfigurationError] ending in [No output
    type specified] beside a configuration in which nothing past the
    output type is set (no bundle size, no timeout, no TLS
    configuration, no event types). *)
Theorem ParseConfig_early_returns env fn :
  (∀ e, ini_LoadFile env fn = inl e →
        ParseConfig env fn = Returned (Configuration_zero, Some e))
  ∧ (∀ input, ini_LoadFile env fn = inr input →
       Get input "bridge" "output_type" = None →
       ∃ cfg errs,
         ParseConfig env fn = Returned (cfg, Some (errConfiguration errs))
         ∧ last (Errors errs) = Some "No output type specified"
         ∧ BundleSizeMax cfg = 0 ∧ BundleSendTimeout cfg = 0
         ∧ UploadEmptyFiles cfg = false ∧ TLSConfig cfg = None
         ∧ EventTypes cfg = []).
Proof.
  split.
  - intros e Hload. unfold ParseConfig. by rewrite Hload.
  - intros input Hload Hot. unfold ParseConfig. rewrite Hload, Hot. cbv zeta.
    eexists _, _. split; [reflexivity|]. cbn. split; [apply last_snoc|done].
Qed.

(** X18. With auditing switched on and no [redis_host] in [audit],
    [ParseConfig] panics with [NOT OK] instead of returning an error
    (the file naming an output type and no post template of its own). *)
Theorem audit_without_redis_host_panics env fn input ot v :
  ini_LoadFile env fn = inr input →
  Get input "bridge" "output_type" = Some ot →
  Get input "http" "http_post_template" = None →
  Get input "splunk" "http_post_template" = None →
  Get input "audit" "enabled" = Some v →
  strconv_ParseBool v = Some true →
  Get input "audit" "redis_host" = None →
  ParseConfig env fn = Panicked "NOT OK".
Proof.
  intros Hload Hot Hhttp Hsplunk Haudit Hv Hhost.
  unfold ParseConfig. rewrite Hload, Hot. cbv zeta.
  rewrite Hhttp, Hsplunk, Haudit, Hhost. cbn [bool_setting]. rewrite Hv. cbn [default from_option id].
  set (format := match Get input "bridge" "output_format" with
                 | Some val => _
                 | None => _
                 end).
  destruct (parsePostTemplate_default env format httpJSONPostTemplate) as [t1 Ht1];
    [by eexists|].
  destruct (parsePostTemplate_default env format splunkJSONPostTemplate) as [t2 Ht2];
    [by eexists|].
  rewrite Ht1, Ht2. by destruct (switch_outType _).
Qed.

(** X19. With a client certificate and key named in the section of the
    output type and not loadable, [ParseConfig] ends the process with the
    loader's error text (auditing off, no post template of its own). *)
Theorem unreadable_certificate_exits env fn input ot cert key e :
  ini_LoadFile env fn = inr input →
  Get input "bridge" "output_type" = Some ot →
  Get input "http" "http_post_template" = None →
  Get input "splunk" "http_post_template" = None →
  Get input "audit" "enabled" = None →
  Get input (normalize env ot) "client_cert" = Some cert →
  Get input (normalize env ot) "client_key" = Some key →
  cert ≠ "" → key ≠ "" →
  tls_LoadX509KeyPair env cert key = inl e →
  ParseConfig env fn = Exited (error_Error e).
Proof.
  intros Hload Hot Hhttp Hsplunk Haudit Hcert Hkey Hc Hk Hpair.
  unfold ParseConfig. rewrite Hload, Hot. cbv zeta.
  fold (normalize env ot). rewrite Hhttp, Hsplunk, Haudit, Hcert, Hkey.
  set (format := match Get input "bridge" "output_format" with
                 | Some val => _
                 | None => _
                 end).
  destruct (parsePostTemplate_default env format httpJSONPostTemplate) as [t1 Ht1];
    [by eexists|].
  destruct (parsePostTemplate_default env format splunkJSONPostTemplate) as [t2 Ht2];
    [by eexists|].
  rewrite Ht1, Ht2.
  assert (Hne : ∀ s, s ≠ "" → nonempty (Some s) = Some s).
  { intros [|c s] Hs; [done|reflexivity]. }
  unfold configureTLS. rewrite (Hne cert Hc), (Hne key Hk), Hpair.
  by destruct (switch_outType _).
Qed.

(** X20. [parseCbConf] returns no error exactly when [/etc/cb/cb.conf]
    loads and holds a non-empty [RabbitMQUser] and a non-empty
    [RabbitMQPassword], which are then what it returns; when the file does
    not load it returns the loader's error and two empty strings. *)
Theorem parseCbConf_credentials env :
  ((parseCbConf env).2 = None
   ↔ ∃ conf u p, ini_LoadFile env "/etc/cb/cb.conf" = inr conf
                 ∧ Get conf "" "RabbitMQUser" = Some u ∧ u ≠ ""
                 ∧ Get conf "" "RabbitMQPassword" = Some p ∧ p ≠ ""
                 ∧ (parseCbConf env).1 = (u, p))
  ∧ (∀ e, ini_LoadFile env "/etc/cb/cb.conf" = inl e →
          parseCbConf env = ("", "", Some e)).
Proof.
  unfold parseCbConf. destruct (ini_LoadFile env "/etc/cb/cb.conf") as [e|conf].
  - split; [|by intros ? [= <-]]. split; [done|].
    intros (? & ? & ? & Hc & _). discriminate Hc.
  - split; [|done].
    destruct (Get conf "" "RabbitMQUser") as [[|c u]|] eqn:Hu;
      destruct (Get conf "" "RabbitMQPassword") as [[|c' p]|] eqn:Hp; cbn;
      (split;
       [try done
       |try (intros (conf' & u' & p' & Hc & H1 & H2 & H3 & H4 & _);
             injection Hc as <-; congruence)]).
    intros _. exists conf, (String c u), (String c' p). repeat split; done.
Qed.

Lemma ParseConfig_early_returns_witness :
  ∃ cfg errs,
    ParseConfig (sampleEnv noOutputTypeConf okAnswer) "forwarder.conf"
    = Returned (cfg, Some (errConfiguration errs))
    ∧ last (Errors errs) = Some "No output type specified"
    ∧ BundleSizeMax cfg = 0 ∧ BundleSendTimeout cfg = 0
    ∧ UploadEmptyFiles cfg = false ∧ TLSConfig cfg = None
    ∧ EventTypes cfg = [].
Proof.
  exact (proj2 (ParseConfig_early_returns (sampleEnv noOutputTypeConf okAnswer)
                  "forwarder.conf") noOutputTypeConf eq_refl eq_refl).
Defined.

Lemma audit_without_redis_host_panics_witness :
  ParseConfig (sampleEnv auditNoHostConf okAnswer) "forwarder.conf" = Panicked "NOT OK".
Proof.
  exact (audit_without_redis_host_panics
           (sampleEnv auditNoHostConf okAnswer) "forwarder.conf" auditNoHostConf "http"
           "true" eq_refl eq_refl eq_refl eq_refl eq_refl eq_refl eq_refl).
Defined.

Lemma unreadable_certificate_exits_witness :
  ParseConfig (sampleEnv certConf okAnswer) "forwarder.conf" = Exited "no such file".
Proof.
  refine (unreadable_certificate_exits
            (sampleEnv certConf okAnswer) "forwarder.conf" certConf "http"
            "client.pem" "client.key" (errorString "no such file")
            eq_refl eq_refl eq_refl eq_refl eq_refl eq_refl eq_refl _ _ eq_refl).
  - discriminate.
  - discriminate.
Defined.

(** The sample host has no [/etc/cb/cb.conf]. *)
Lemma parseCbConf_credentials_witness :
  parseCbConf (sampleEnv httpConf okAnswer) = ("", "", Some (errorString "no such file")).
Proof.
  exact (proj2 (parseCbConf_credentials (sampleEnv httpConf okAnswer))
           (errorString "no such file") eq_refl).
Defined.

(* ===================================================================== *)
(** ** The default post templates                                         *)
(* ===================================================================== *)

Lemma seq_exec_cons {A} (f : A → written) (x : A) (l : list A) :
  seq_exec f (x :: l)
  = match f x with
    | (o, None) => let '(o', e) := seq_exec f l in (o +:+ o', e)
    | (o, Some e) => (o, Some e)
    end.
Proof. reflexivity. Qed.

(** [{{range .Events}}{{.EventText}}{{end}}] writes the texts of the
    events one after the other. *)
Lemma range_EventText (events : list UploadEvent) :
  seq_exec (fun elem => seq_exec (fun n' => exec_node n' elem)
                          [ActionNode (ArgField ["EventText"])])
    (UploadEvent_value <$> events)
  = (event_texts events, None).
Proof.
  induction events as [|e events IH]; [done|].
  rewrite fmap_cons, seq_exec_cons, IH. cbn. by rewrite append_empty_r.
Qed.

Lemma range_splunk_event (events : list UploadEvent) :
  seq_exec (fun elem => seq_exec (fun n' => exec_node n' elem)
                          [TextNode (quoted "{'sourcetype':'bit9:carbonblack:json','event':");
                           ActionNode (ArgField ["EventText"]);
                           TextNode "}"])
    (UploadEvent_value <$> events)
  = (splunk_events events, None).
Proof.
  induction events as [|e events IH]; [done|].
  rewrite fmap_cons, seq_exec_cons, IH. cbn.
  by rewrite ?append_empty_r, ?append_assoc.
Qed.

(** X21. The post templates [ParseConfig] falls back on parse, and they
    never fail on the data of an upload, whatever the events. For the
    JSON format the HTTP one writes the envelope with the file name
    around the texts of the events, one after the other, and the Splunk
    one writes each text inside its own [sourcetype] object with nothing
    between the objects; for the LEEF format the template writes the
    texts alone. *)
Theorem default_post_templates (env : Env) (d : UploadData) :
  (∃ t, parsePostTemplate env None JSONOutputFormat httpJSONPostTemplate = Returned t
        ∧ template_Execute t (UploadData_value d)
          = (quoted "{'filename': '" +:+ FileName d +:+
             quoted "', 'service': 'carbonblack', 'alerts':[" +:+
             event_texts (Events d) +:+ "]}", None))
  ∧ (∃ t, parsePostTemplate env None JSONOutputFormat splunkJSONPostTemplate = Returned t
          ∧ template_Execute t (UploadData_value d) = (splunk_events (Events d), None))
  ∧ (∀ jsonDefault,
       ∃ t, parsePostTemplate env None LEEFOutputFormat jsonDefault = Returned t
            ∧ template_Execute t (UploadData_value d) = (event_texts (Events d), None)).
Proof.
  split; [|split].
  - eexists. split; [vm_compute; reflexivity|].
    unfold template_Execute. cbn [tmpl_Root].
    rewrite !seq_exec_cons.
    cbn [exec_node eval_arg eval_field lookup_field String.eqb Ascii.eqb Bool.eqb
         mbind option_bind print_value UploadData_value].
    rewrite range_EventText. cbn [seq_exec].
    by rewrite ?append_empty_r, ?append_assoc.
  - eexists. split; [vm_compute; reflexivity|].
    unfold template_Execute. cbn [tmpl_Root].
    rewrite !seq_exec_cons.
    cbn [exec_node eval_arg eval_field lookup_field String.eqb Ascii.eqb Bool.eqb
         mbind option_bind print_value UploadData_value].
    rewrite range_splunk_event. cbn [seq_exec].
    by rewrite ?append_empty_r.
  - intros jsonDefault. eexists. split; [vm_compute; reflexivity|].
    unfold template_Execute. cbn [tmpl_Root].
    rewrite !seq_exec_cons.
    cbn [exec_node eval_arg eval_field lookup_field String.eqb Ascii.eqb Bool.eqb
         mbind option_bind print_value UploadData_value].
    rewrite range_EventText. cbn [seq_exec].
    by rewrite ?append_empty_r.
Qed.

(* ===================================================================== *)
(** ** More on [Initialize] and [Upload]                                  *)
(* ===================================================================== *)

(** [Initialize] stores no header besides [Authorization] and
    [Content-Type]. *)
Lemma Http_Initialize_other_headers config this0 dest this err key :
  HttpBehavior.Initialize config this0 dest = Returned (this, err) →
  key ≠ "Authorization" → key ≠ "Content-Type" →
  HttpBehavior.headers this !! key = None.
Proof.
  unfold HttpBehavior.Initialize. invert_Initialize. cbn. intros Hauth Hct.
  rewrite lookup_insert_ne by done.
  destruct (HttpAuthorizationToken config); [by rewrite lookup_insert_ne|done].
Qed.

Lemma Splunk_Initialize_other_headers config this0 dest this err key :
  SplunkBehavior.Initialize config this0 dest = Returned (this, err) →
  key ≠ "Authorization" → key ≠ "Content-Type" →
  SplunkBehavior.headers this !! key = None.
Proof.
  unfold SplunkBehavior.Initialize. invert_Initialize. cbn. intros Hauth Hct.
  rewrite lookup_insert_ne by done.
  destruct (SplunkToken config); [by rewrite lookup_insert_ne|done].
Qed.

Section UploadsMore.

Context (env : Env) (name : string) (fp : os_File).

(** X22. The request of an upload by an initialised behaviour is a POST
    to the destination given to [Initialize]; its [Content-Type] is the
    configured content type, as its only value, and it carries no header
    besides [Content-Type] and [Authorization]. This holds for the HTTP
    and for the Splunk behaviour. *)
Theorem request_of_an_upload config dest :
  (∀ this0 this err request,
     HttpBehavior.Initialize config this0 dest = Returned (this, err) →
     HttpBehavior.Upload_request env this name fp = Returned request →
     Method request = "POST" ∧ URL request = dest
     ∧ Header request !! "Content-Type" = (fun ct => [ct]) <$> HttpContentType config
     ∧ is_Some (HttpContentType config)
     ∧ ∀ key, key ≠ "Authorization" → key ≠ "Content-Type" →
              Header request !! key = None)
  ∧ (∀ this0 this err request,
     SplunkBehavior.Initialize config this0 dest = Returned (this, err) →
     SplunkBehavior.Upload_request env this name fp = Returned request →
     Method request = "POST" ∧ URL request = dest
     ∧ Header request !! "Content-Type" = (fun ct => [ct]) <$> HttpContentType config
     ∧ is_Some (HttpContentType config)
     ∧ ∀ key, key ≠ "Authorization" → key ≠ "Content-Type" →
              Header request !! key = None).
Proof.
  split; intros this0 this err request Hinit Hreq.
  - pose proof (fun key => Http_Initialize_other_headers _ _ _ _ _ key Hinit) as Hother.
    pose proof (Http_Initialize_headers _ _ _ _ _ Hinit) as (_ & Hdest & _ & Hct).
    apply Http_Upload_request_inv in Hreq as (Hm & Hurl & ->).
    split; [done|]. split; [congruence|]. rewrite lookup_fmap, Hct.
    split; [done|]. split.
    + unfold HttpBehavior.Initialize in Hinit. cbn [template_Must obind] in Hinit.
      destruct (HttpContentType config); [by eexists|discriminate].
    + intros key Hauth Hkey. by rewrite lookup_fmap, (Hother key Hauth Hkey).
  - pose proof (fun key => Splunk_Initialize_other_headers _ _ _ _ _ key Hinit) as Hother.
    pose proof (Splunk_Initialize_headers _ _ _ _ _ Hinit) as (_ & Hdest & _ & Hct).
    apply Splunk_Upload_request_inv in Hreq as (Hm & Hurl & ->).
    split; [done|]. split; [congruence|]. rewrite lookup_fmap, Hct.
    split; [done|]. split.
    + unfold SplunkBehavior.Initialize in Hinit. cbn [template_Must obind] in Hinit.
      destruct (HttpContentType config); [by eexists|discriminate].
    + intros key Hauth Hkey. by rewrite lookup_fmap, (Hother key Hauth Hkey).
Qed.

(** X23. The error of [http.NewRequest] is never looked at: an upload by
    an initialised behaviour to a destination [http.NewRequest] refuses
    does not return a status, it panics on the [nil] request. This holds
    for the HTTP and for the Splunk behaviour. *)
Theorem refused_destination_panics config dest :
  url_Parse_ok env dest = false →
  (∀ this0 this err,
     HttpBehavior.Initialize config this0 dest = Returned (this, err) →
     HttpBehavior.Upload env this name fp
     = Panicked "invalid memory address or nil pointer dereference")
  ∧ (∀ this0 this err,
     SplunkBehavior.Initialize config this0 dest = Returned (this, err) →
     SplunkBehavior.Upload env this name fp
     = Panicked "invalid memory address or nil pointer dereference").
Proof.
  intros Hurl. split; intros this0 this err Hinit.
  - pose proof (Http_Initialize_headers _ _ _ _ _ Hinit) as (_ & Hdest & _).
    apply Http_Initialize_templates in Hinit as (_ & Hfirst & Hsub & _).
    unfold HttpBehavior.Upload, HttpBehavior.Upload_request, http_NewRequest.
    rewrite Hfirst, Hsub, Hdest, Hurl.
    by destruct (HttpBehavior.httpPostTemplate this).
  - pose proof (Splunk_Initialize_headers _ _ _ _ _ Hinit) as (_ & Hdest & _).
    apply Splunk_Initialize_templates in Hinit as (_ & Hfirst & Hsub & _).
    unfold SplunkBehavior.Upload, SplunkBehavior.Upload_request, http_NewRequest.
    rewrite Hfirst, Hsub, Hdest, Hurl.
    by destruct (SplunkBehavior.httpPostTemplate this).
Qed.

(** X24. Every status an upload returns names the file that was
    uploaded, and its result is [nil] exactly when its status is 200.
    This holds for both behaviours, whatever state they are in. *)
Theorem returned_status_invariant :
  (∀ this st,
     HttpBehavior.Upload env this name fp = Returned st →
     fileName st = name ∧ (result st = None ↔ status st = 200))
  ∧ (∀ this st,
     SplunkBehavior.Upload env this name fp = Returned st →
     fileName st = name ∧ (result st = None ↔ status st = 200)).
Proof.
  split; intros this st.
  - unfold HttpBehavior.Upload.
    destruct (HttpBehavior.Upload_request env this name fp) as [request| |];
      [|discriminate..]. cbn [obind].
    destruct (HttpBehavior.client this) as [client|]; [|discriminate].
    destruct (http_Client_Do env client request) as [e|resp].
    + by intros [= <-].
    + destruct (ioutil_ReadAll (Body resp)) as [body readErr].
      destruct (Z.eqb_spec (StatusCode resp) 200) as [Hok|Hbad]; intros [= <-]; cbn.
      * done.
      * split; [done|]. split; [done|]. intros H200. by destruct Hbad.
  - unfold SplunkBehavior.Upload.
    destruct (SplunkBehavior.Upload_request env this name fp) as [request| |];
      [|discriminate..]. cbn [obind].
    destruct (SplunkBehavior.client this) as [client|]; [|discriminate].
    destruct (http_Client_Do env client request) as [e|resp].
    + by intros [= <-].
    + destruct (ioutil_ReadAll (Body resp)) as [body readErr].
      destruct (Z.eqb_spec (StatusCode resp) 200) as [Hok|Hbad]; intros [= <-]; cbn.
      * done.
      * split; [done|]. split; [done|]. intros H200. by destruct Hbad.
Qed.

End UploadsMore.

Lemma request_of_an_upload_witness :
  Method splunkRequest = "POST"
  ∧ URL splunkRequest = OutputParameters splunkConfig
  ∧ Header splunkRequest !! "Content-Type"
    = (fun ct => [ct]) <$> HttpContentType splunkConfig
  ∧ is_Some (HttpContentType splunkConfig)
  ∧ ∀ key, key ≠ "Authorization" → key ≠ "Content-Type" →
           Header splunkRequest !! key = None.
Proof.
  refine (proj2 (request_of_an_upload (sampleEnv splunkConf okAnswer) "bundle" threeRecords
                   splunkConfig (OutputParameters splunkConfig))
            Splunk_zero splunkBehavior None splunkRequest _ _).
  - vm_compute; reflexivity.
  - vm_compute; reflexivity.
Defined.

Lemma refused_destination_panics_witness :
  HttpBehavior.Upload (refusingEnv httpConf okAnswer) httpBehavior "bundle" threeRecords
  = Panicked "invalid memory address or nil pointer dereference".
Proof.
  refine (proj1 (refused_destination_panics (refusingEnv httpConf okAnswer) "bundle"
                   threeRecords httpConfig (OutputParameters httpConfig) eq_refl)
            Http_zero httpBehavior None _).
  vm_compute; reflexivity.
Defined.

(** The status of the http sample's upload, answered with 500. *)
Lemma returned_status_invariant_witness :
  fileName failedStatus = "bundle"
  ∧ (result failedStatus = None ↔ status failedStatus = 200).
Proof.
  refine (proj1 (returned_status_invariant (sampleEnv httpConf failAnswer) "bundle"
                   threeRecords) httpBehavior failedStatus _).
  vm_compute; reflexivity.
Defined.
